(** * USB CDC-ACM virtual serial port: endpoint registers, buffer
      descriptors and serial flow control

    A shallow embedding of [afrowii/usb/usb_reg_map.h] and
    [afrowii/usb/usb_cdcacm.c].  C integers are modelled as [Z] with the
    wrap-around of the C type written out; the memory-mapped peripheral is a
    record of total maps from register index or bus address to the value
    held there; a C array is a list, and an access outside it makes the
    operation return [None]. *)

From stdpp Require Import base numbers list option functions.

Local Open Scope Z_scope.

(** ** Machine integers *)

Definition u8 (x : Z) : Z := x `mod` 2 ^ 8.
Definition u16 (x : Z) : Z := x `mod` 2 ^ 16.
Definition u32 (x : Z) : Z := x `mod` 2 ^ 32.

(** Modelled from the spec: the [BIT] macro comes from [sysdep.h], which is
    not part of the sources at hand; every flag the spec names is a single
    bit, so [BIT n] is the mask with only bit [n] set. *)
Definition BIT (n : Z) : Z := Z.shiftl 1 n.

(** ** Register map ([usb_reg_map.h]) *)

Definition USB_NR_EP_REGS : Z := 8.

Definition USB_EP_CTR_RX_BIT : Z := 15.
Definition USB_EP_DTOG_RX_BIT : Z := 14.
Definition USB_EP_SETUP_BIT : Z := 11.
Definition USB_EP_EP_KIND_BIT : Z := 8.
Definition USB_EP_CTR_TX_BIT : Z := 7.
Definition USB_EP_DTOG_TX_BIT : Z := 6.

Definition USB_EP_CTR_RX : Z := BIT USB_EP_CTR_RX_BIT.
Definition USB_EP_DTOG_RX : Z := BIT USB_EP_DTOG_RX_BIT.
Definition USB_EP_STAT_RX : Z := Z.shiftl 0x3 12.
Definition USB_EP_STAT_RX_DISABLED : Z := Z.shiftl 0x0 12.
Definition USB_EP_STAT_RX_STALL : Z := Z.shiftl 0x1 12.
Definition USB_EP_STAT_RX_NAK : Z := Z.shiftl 0x2 12.
Definition USB_EP_STAT_RX_VALID : Z := Z.shiftl 0x3 12.
Definition USB_EP_SETUP : Z := BIT USB_EP_SETUP_BIT.
Definition USB_EP_EP_TYPE : Z := Z.shiftl 0x3 9.
Definition USB_EP_EP_TYPE_BULK : Z := Z.shiftl 0x0 9.
Definition USB_EP_EP_TYPE_CONTROL : Z := Z.shiftl 0x1 9.
Definition USB_EP_EP_TYPE_ISO : Z := Z.shiftl 0x2 9.
Definition USB_EP_EP_TYPE_INTERRUPT : Z := Z.shiftl 0x3 9.
Definition USB_EP_EP_KIND : Z := BIT USB_EP_EP_KIND_BIT.
Definition USB_EP_CTR_TX : Z := BIT USB_EP_CTR_TX_BIT.
Definition USB_EP_DTOG_TX : Z := BIT USB_EP_DTOG_TX_BIT.
Definition USB_EP_STAT_TX : Z := Z.shiftl 0x3 4.
Definition USB_EP_STAT_TX_DISABLED : Z := Z.shiftl 0x0 4.
Definition USB_EP_STAT_TX_STALL : Z := Z.shiftl 0x1 4.
Definition USB_EP_STAT_TX_NAK : Z := Z.shiftl 0x2 4.
Definition USB_EP_STAT_TX_VALID : Z := Z.shiftl 0x3 4.
Definition USB_EP_EA : Z := 0xF.

Definition __EP_CTR_NOP : Z := Z.lor USB_EP_CTR_RX USB_EP_CTR_TX.
Definition __EP_NONTOGGLE : Z :=
  Z.lor (Z.lor (Z.lor (Z.lor (Z.lor USB_EP_CTR_RX USB_EP_SETUP)
                             USB_EP_EP_TYPE) USB_EP_EP_KIND)
               USB_EP_CTR_TX) USB_EP_EA.

Definition USB_PMA_BASE : Z := 0x40006000.

(** The peripheral as the driver sees it: the endpoint registers
    [USB_BASE->EP[n]], the buffer table base [USB_BASE->BTABLE], and the
    packet memory, indexed by the bus address the driver dereferences.
    [EP] is total, while the C array has [USB_NR_EP_REGS] entries: the
    model is the code for an index inside that range, which is where every
    call in [usb_cdcacm.c] takes it (endpoints 0 to 3).  At an index
    outside the array the C access has no defined meaning, and what a
    statement below says there is about the model alone. *)
Record usb_periph : Type := mk_periph {
  EP : Z -> Z;
  BTABLE : Z;
  pma : Z -> Z
}.

Definition with_EP (f : Z -> Z) (hw : usb_periph) : usb_periph :=
  mk_periph f (BTABLE hw) (pma hw).
Definition with_BTABLE (b : Z) (hw : usb_periph) : usb_periph :=
  mk_periph (EP hw) b (pma hw).
Definition with_pma (m : Z -> Z) (hw : usb_periph) : usb_periph :=
  mk_periph (EP hw) (BTABLE hw) m.

(** *** Hardware semantics of a store to an endpoint register

    This is the behaviour of the peripheral, not of the driver: in
    [USB_EPnR] the STAT_RX, STAT_TX, DTOG_RX and DTOG_TX bits toggle when a
    one is written and keep their value when a zero is written; CTR_RX and
    CTR_TX are cleared by writing zero and keep their value when a one is
    written; SETUP, EP_TYPE, EP_KIND and EA take the written value.  The
    register is sixteen bits wide. *)
Definition EPR_TOGGLE : Z :=
  Z.lor (Z.lor (Z.lor USB_EP_STAT_RX USB_EP_DTOG_RX) USB_EP_STAT_TX)
        USB_EP_DTOG_TX.
Definition EPR_PLAIN : Z :=
  Z.lor (Z.lor (Z.lor USB_EP_SETUP USB_EP_EP_TYPE) USB_EP_EP_KIND) USB_EP_EA.

Definition epr_hw_write (old w : Z) : Z :=
  Z.lor (Z.lor (Z.land (Z.lxor old w) EPR_TOGGLE)
               (Z.land (Z.land old w) __EP_CTR_NOP))
        (Z.land w EPR_PLAIN).

(** [USB_BASE->EP[ep] = w] *)
Definition write_EP (ep w : Z) (hw : usb_periph) : usb_periph :=
  with_EP (<[ep := epr_hw_write (EP hw ep) w]> (EP hw)) hw.

(** *** Register convenience routines *)

Definition usb_clear_ctr_rx (ep : Z) (hw : usb_periph) : usb_periph :=
  let epr := EP hw ep in
  write_EP ep (Z.land (Z.land epr (Z.lnot USB_EP_CTR_RX)) __EP_NONTOGGLE) hw.

Definition usb_clear_ctr_tx (ep : Z) (hw : usb_periph) : usb_periph :=
  let epr := EP hw ep in
  write_EP ep (Z.land (Z.land epr (Z.lnot USB_EP_CTR_TX)) __EP_NONTOGGLE) hw.

Definition usb_set_ep_rx_stat (ep status : Z) (hw : usb_periph) : usb_periph :=
  let epr := EP hw ep in
  let epr := Z.land epr
               (Z.lnot (Z.lor (Z.lor USB_EP_STAT_TX USB_EP_DTOG_RX)
                              USB_EP_DTOG_TX)) in
  let epr := Z.lor epr __EP_CTR_NOP in
  let epr := Z.lxor epr status in
  write_EP ep epr hw.

Definition usb_set_ep_tx_stat (ep status : Z) (hw : usb_periph) : usb_periph :=
  let epr := EP hw ep in
  let epr := Z.land epr
               (Z.lnot (Z.lor (Z.lor USB_EP_STAT_RX USB_EP_DTOG_RX)
                              USB_EP_DTOG_TX)) in
  let epr := Z.lor epr __EP_CTR_NOP in
  let epr := Z.lxor epr status in
  write_EP ep epr hw.

Definition usb_set_ep_type (ep type : Z) (hw : usb_periph) : usb_periph :=
  let epr := EP hw ep in
  let epr := Z.land epr (Z.land (Z.lnot USB_EP_EP_TYPE) __EP_NONTOGGLE) in
  let epr := Z.lor epr type in
  write_EP ep epr hw.

Definition usb_set_ep_kind (ep kind : Z) (hw : usb_periph) : usb_periph :=
  let epr := EP hw ep in
  let epr := Z.land epr (Z.land (Z.lnot USB_EP_EP_KIND) __EP_NONTOGGLE) in
  let epr := Z.lor epr kind in
  write_EP ep epr hw.

Definition usb_clear_status_out (ep : Z) (hw : usb_periph) : usb_periph :=
  usb_set_ep_kind ep 0 hw.

(** *** Packet memory and buffer descriptor table *)

(** [usb_pma_ptr]: [USB_PMA_BASE + 2 * offset], the product taken in
    [uint32_t]. *)
Definition usb_pma_ptr (offset : Z) : Z := USB_PMA_BASE + u32 (2 * offset).

Definition usb_btable_ptr (hw : usb_periph) (offset : Z) : Z :=
  usb_pma_ptr (u32 (BTABLE hw + offset)).

(** [*p = v] for a [uint32_t *p] into the packet memory. *)
Definition pma_store (p v : Z) (hw : usb_periph) : usb_periph :=
  with_pma (<[p := u32 v]> (pma hw)) hw.

Definition usb_ep_tx_addr_ptr (hw : usb_periph) (ep : Z) : Z :=
  usb_btable_ptr hw (ep * 8).

Definition usb_get_ep_tx_addr (hw : usb_periph) (ep : Z) : Z :=
  u16 (pma hw (usb_ep_tx_addr_ptr hw ep)).

Definition usb_set_ep_tx_addr (ep addr : Z) (hw : usb_periph) : usb_periph :=
  let tx_addr := usb_ep_tx_addr_ptr hw ep in
  pma_store tx_addr (Z.land addr (Z.lnot 0x1)) hw.

Definition usb_ep_rx_addr_ptr (hw : usb_periph) (ep : Z) : Z :=
  usb_btable_ptr hw (ep * 8 + 4).

Definition usb_get_ep_rx_addr (hw : usb_periph) (ep : Z) : Z :=
  u16 (pma hw (usb_ep_rx_addr_ptr hw ep)).

Definition usb_set_ep_rx_addr (ep addr : Z) (hw : usb_periph) : usb_periph :=
  let rx_addr := usb_ep_rx_addr_ptr hw ep in
  pma_store rx_addr (Z.land addr (Z.lnot 0x1)) hw.

Definition usb_ep_tx_count_ptr (hw : usb_periph) (ep : Z) : Z :=
  usb_btable_ptr hw (ep * 8 + 2).

Definition usb_get_ep_tx_count (hw : usb_periph) (ep : Z) : Z :=
  u16 (pma hw (usb_ep_tx_count_ptr hw ep)).

Definition usb_set_ep_tx_count (ep count : Z) (hw : usb_periph) : usb_periph :=
  let txc := usb_ep_tx_count_ptr hw ep in
  pma_store txc count hw.

Definition usb_ep_rx_count_ptr (hw : usb_periph) (ep : Z) : Z :=
  usb_btable_ptr hw (ep * 8 + 6).

Definition usb_get_ep_rx_count (hw : usb_periph) (ep : Z) : Z :=
  Z.land (u16 (pma hw (usb_ep_rx_count_ptr hw ep))) 0x3FF.

(** Modelled from the spec: [usb_set_ep_rx_count] is only declared in
    [usb_reg_map.h]; its body is not part of the sources at hand.  The spec
    (4.2) has the manager set the RX count recorded in the endpoint's slot of
    the buffer descriptor table, so the model stores [count] in the
    [count_rx] field of the slot. *)
Definition usb_set_ep_rx_count (ep count : Z) (hw : usb_periph) : usb_periph :=
  let rxc := usb_ep_rx_count_ptr hw ep in
  pma_store rxc count hw.

(** The raw [count_rx] field of an endpoint's slot. *)
Definition bdt_rx_count (hw : usb_periph) (ep : Z) : Z :=
  u16 (pma hw (usb_ep_rx_count_ptr hw ep)).

(** Modelled from the spec: [usb_copy_to_pma] is only declared in
    [usb_reg_map.h].  The spec (4.1) has it move [len] bytes from a linear
    buffer into the packet memory, which is accessed in 16-bit units at
    [base + 2 * offset], a trailing single byte being packed into a 16-bit
    lane of its own.  Two consecutive bytes share a lane, the first in the
    low half; consecutive lanes are four bus addresses apart.  Reading
    beyond the end of [buf] is an access outside the array. *)
Fixpoint pma_pack (bytes : list Z) (p : Z) (m : Z -> Z) : Z -> Z :=
  match bytes with
  | [] => m
  | [b] => <[p := u8 b]> m
  | lo :: hi :: rest =>
      pma_pack rest (p + 4) (<[p := Z.lor (u8 lo) (Z.shiftl (u8 hi) 8)]> m)
  end.

Definition usb_copy_to_pma (buf : list Z) (len pma_offset : Z)
    (hw : usb_periph) : option usb_periph :=
  if decide (len <= Z.of_nat (length buf)) then
    Some (with_pma (pma_pack (take (Z.to_nat len) buf)
                             (usb_pma_ptr pma_offset) (pma hw)) hw)
  else None.

(** Modelled from the spec: [usb_copy_from_pma] is only declared in
    [usb_reg_map.h].  The spec (4.1) has it move [len] bytes from the packet
    memory into a linear buffer without touching the buffer past [len];
    the lanes are unpacked as [usb_copy_to_pma] packs them.  The result is
    the destination array after the copy; a [len] beyond the end of the
    array is a store outside it. *)
Fixpoint pma_unpack (n : nat) (p : Z) (m : Z -> Z) : list Z :=
  match n with
  | O => []
  | S O => [Z.land (m p) 0xFF]
  | S (S n') =>
      Z.land (m p) 0xFF :: Z.land (Z.shiftr (m p) 8) 0xFF
        :: pma_unpack n' (p + 4) m
  end.

Definition usb_copy_from_pma (buf : list Z) (len pma_offset : Z)
    (hw : usb_periph) : option (list Z) :=
  if decide (len <= Z.of_nat (length buf)) then
    Some (pma_unpack (Z.to_nat len) (usb_pma_ptr pma_offset) (pma hw)
            ++ drop (Z.to_nat len) buf)
  else None.

Definition USB_EP0 : Z := 0.

(** ** CDC ACM state and routines ([usb_cdcacm.c]) *)

Definition VCOM_CTRL_EPNUM : Z := 0x00.
Definition VCOM_CTRL_RX_ADDR : Z := 0x40.
Definition VCOM_CTRL_TX_ADDR : Z := 0x80.
Definition VCOM_CTRL_EPSIZE : Z := 0x40.

Definition VCOM_TX_ENDP : Z := 1.
Definition VCOM_TX_EPNUM : Z := 0x01.
Definition VCOM_TX_ADDR : Z := 0xC0.
Definition VCOM_TX_EPSIZE : Z := 0x40.

Definition VCOM_NOTIFICATION_ENDP : Z := 2.
Definition VCOM_NOTIFICATION_EPNUM : Z := 0x02.
Definition VCOM_NOTIFICATION_ADDR : Z := 0x100.
Definition VCOM_NOTIFICATION_EPSIZE : Z := 0x40.

Definition VCOM_RX_ENDP : Z := 3.
Definition VCOM_RX_EPNUM : Z := 0x03.
Definition VCOM_RX_ADDR : Z := 0x110.
Definition VCOM_RX_EPSIZE : Z := 0x40.
Definition VCOM_RX_BUFLEN : Z := VCOM_RX_EPSIZE * 3.

Definition SET_LINE_CODING : Z := 0x20.
Definition GET_LINE_CODING : Z := 0x21.
Definition SET_COMM_FEATURE : Z := 0x02.
Definition SET_CONTROL_LINE_STATE : Z := 0x22.
Definition CONTROL_LINE_DTR : Z := 0x01.
Definition CONTROL_LINE_RTS : Z := 0x02.

Definition MAX_PACKET_SIZE : Z := 0x40.
Definition BTABLE_ADDRESS : Z := 0x00.

Inductive RESET_STATE : Type :=
  | DTR_UNSET
  | DTR_HIGH
  | DTR_NEGEDGE
  | DTR_LOW.

Record USB_Line_Coding : Type := mk_line_coding {
  bitrate : Z;
  format : Z;
  paritytype : Z;
  datatype : Z
}.

(** The two results of the control-transfer stack that this file returns. *)
Inductive RESULT : Type :=
  | USB_SUCCESS
  | USB_UNSUPPORT.

(** The device states of the USB stack that this file assigns. *)
Inductive usb_dev_state : Type :=
  | USB_UNCONNECTED
  | USB_ATTACHED
  | USB_ADDRESSED
  | USB_CONFIGURED.

(** The process-wide state: the peripheral, the three fields of the USB
    stack that this file writes ([pInformation->Current_Configuration],
    [pInformation->Current_Feature], [USBLIB->state]), the globals of
    [usb_cdcacm.c], and the function-local static [rx_offset] of
    [usb_cdcacm_rx]. *)
Record vcom : Type := mk_vcom {
  hw : usb_periph;
  Current_Configuration : Z;
  Current_Feature : Z;
  usblib_state : usb_dev_state;
  last_request : Z;
  line_coding : USB_Line_Coding;
  vcomBufferRx : list Z;
  countTx : Z;
  recvBufIn : Z;
  recvBufOut : Z;
  maxNewBytes : Z;
  newBytes : Z;
  reset_state : RESET_STATE;
  line_dtr_rts : Z;
  rx_offset : Z
}.

Definition set_hw (v : usb_periph) (s : vcom) : vcom :=
  mk_vcom v (Current_Configuration s) (Current_Feature s) (usblib_state s)
    (last_request s) (line_coding s) (vcomBufferRx s) (countTx s)
    (recvBufIn s) (recvBufOut s) (maxNewBytes s) (newBytes s)
    (reset_state s) (line_dtr_rts s) (rx_offset s).
Definition set_Current_Configuration (v : Z) (s : vcom) : vcom :=
  mk_vcom (hw s) v (Current_Feature s) (usblib_state s)
    (last_request s) (line_coding s) (vcomBufferRx s) (countTx s)
    (recvBufIn s) (recvBufOut s) (maxNewBytes s) (newBytes s)
    (reset_state s) (line_dtr_rts s) (rx_offset s).
Definition set_Current_Feature (v : Z) (s : vcom) : vcom :=
  mk_vcom (hw s) (Current_Configuration s) v (usblib_state s)
    (last_request s) (line_coding s) (vcomBufferRx s) (countTx s)
    (recvBufIn s) (recvBufOut s) (maxNewBytes s) (newBytes s)
    (reset_state s) (line_dtr_rts s) (rx_offset s).
Definition set_usblib_state (v : usb_dev_state) (s : vcom) : vcom :=
  mk_vcom (hw s) (Current_Configuration s) (Current_Feature s) v
    (last_request s) (line_coding s) (vcomBufferRx s) (countTx s)
    (recvBufIn s) (recvBufOut s) (maxNewBytes s) (newBytes s)
    (reset_state s) (line_dtr_rts s) (rx_offset s).
Definition set_vcomBufferRx (v : list Z) (s : vcom) : vcom :=
  mk_vcom (hw s) (Current_Configuration s) (Current_Feature s) (usblib_state s)
    (last_request s) (line_coding s) v (countTx s)
    (recvBufIn s) (recvBufOut s) (maxNewBytes s) (newBytes s)
    (reset_state s) (line_dtr_rts s) (rx_offset s).
Definition set_countTx (v : Z) (s : vcom) : vcom :=
  mk_vcom (hw s) (Current_Configuration s) (Current_Feature s) (usblib_state s)
    (last_request s) (line_coding s) (vcomBufferRx s) v
    (recvBufIn s) (recvBufOut s) (maxNewBytes s) (newBytes s)
    (reset_state s) (line_dtr_rts s) (rx_offset s).
Definition set_recvBufIn (v : Z) (s : vcom) : vcom :=
  mk_vcom (hw s) (Current_Configuration s) (Current_Feature s) (usblib_state s)
    (last_request s) (line_coding s) (vcomBufferRx s) (countTx s)
    v (recvBufOut s) (maxNewBytes s) (newBytes s)
    (reset_state s) (line_dtr_rts s) (rx_offset s).
Definition set_recvBufOut (v : Z) (s : vcom) : vcom :=
  mk_vcom (hw s) (Current_Configuration s) (Current_Feature s) (usblib_state s)
    (last_request s) (line_coding s) (vcomBufferRx s) (countTx s)
    (recvBufIn s) v (maxNewBytes s) (newBytes s)
    (reset_state s) (line_dtr_rts s) (rx_offset s).
Definition set_maxNewBytes (v : Z) (s : vcom) : vcom :=
  mk_vcom (hw s) (Current_Configuration s) (Current_Feature s) (usblib_state s)
    (last_request s) (line_coding s) (vcomBufferRx s) (countTx s)
    (recvBufIn s) (recvBufOut s) v (newBytes s)
    (reset_state s) (line_dtr_rts s) (rx_offset s).
Definition set_newBytes (v : Z) (s : vcom) : vcom :=
  mk_vcom (hw s) (Current_Configuration s) (Current_Feature s) (usblib_state s)
    (last_request s) (line_coding s) (vcomBufferRx s) (countTx s)
    (recvBufIn s) (recvBufOut s) (maxNewBytes s) v
    (reset_state s) (line_dtr_rts s) (rx_offset s).
Definition set_reset_state (v : RESET_STATE) (s : vcom) : vcom :=
  mk_vcom (hw s) (Current_Configuration s) (Current_Feature s) (usblib_state s)
    (last_request s) (line_coding s) (vcomBufferRx s) (countTx s)
    (recvBufIn s) (recvBufOut s) (maxNewBytes s) (newBytes s)
    v (line_dtr_rts s) (rx_offset s).
Definition set_line_dtr_rts (v : Z) (s : vcom) : vcom :=
  mk_vcom (hw s) (Current_Configuration s) (Current_Feature s) (usblib_state s)
    (last_request s) (line_coding s) (vcomBufferRx s) (countTx s)
    (recvBufIn s) (recvBufOut s) (maxNewBytes s) (newBytes s)
    (reset_state s) v (rx_offset s).
Definition set_rx_offset (v : Z) (s : vcom) : vcom :=
  mk_vcom (hw s) (Current_Configuration s) (Current_Feature s) (usblib_state s)
    (last_request s) (line_coding s) (vcomBufferRx s) (countTx s)
    (recvBufIn s) (recvBufOut s) (maxNewBytes s) (newBytes s)
    (reset_state s) (line_dtr_rts s) v.

(** The state at device initialisation: the initialisers of the globals,
    over whatever the peripheral and the USB stack hold then. *)
Definition vcom_init (hw0 : usb_periph) (cfg feat : Z) (st : usb_dev_state)
    : vcom :=
  {| hw := hw0;
     Current_Configuration := cfg;
     Current_Feature := feat;
     usblib_state := st;
     last_request := 0;
     line_coding := mk_line_coding 115200 0x00 0x00 0x08;
     vcomBufferRx := replicate (Z.to_nat VCOM_RX_BUFLEN) 0;
     countTx := 0;
     recvBufIn := 0;
     recvBufOut := 0;
     maxNewBytes := VCOM_RX_BUFLEN;
     newBytes := 0;
     reset_state := DTR_UNSET;
     line_dtr_rts := 0;
     rx_offset := 0 |}.

(** What this file takes from the USB stack ([usb_core.h], [usb_def.h],
    [usb_init.c]), none of which is among the sources at hand: the routine
    [SetDeviceAddress], which acts on the peripheral, and four constants. *)
Class UsbLib : Type := mk_UsbLib {
  SetDeviceAddress : Z -> usb_periph -> usb_periph;
  USB_CONFIG_ATTR_BUSPOWERED : Z;
  USB_CONFIG_ATTR_SELF_POWERED : Z;
  CLASS_REQUEST : Z;
  INTERFACE_RECIPIENT : Z
}.

(** *** CDC ACM interface *)

(** [usb_cdcacm_tx]: the result is the returned count and the new state;
    [buf] is the caller's array. *)
Definition usb_cdcacm_tx (buf : list Z) (len : Z) (s : vcom)
    : option (Z * vcom) :=
  if decide (countTx s <> 0) then Some (0, s)
  else
    let len := if decide (len > VCOM_TX_EPSIZE `quot` 2)
               then VCOM_TX_EPSIZE `quot` 2 else len in
    if decide (len <> 0) then
      hw1 ← usb_copy_to_pma buf (u16 len) VCOM_TX_ADDR (hw s);
      let hw2 := usb_set_ep_tx_count VCOM_TX_ENDP (u16 len) hw1 in
      let s1 := set_countTx (u32 (countTx s + len)) (set_hw hw2 s) in
      let hw3 := usb_set_ep_tx_stat VCOM_TX_ENDP USB_EP_STAT_TX_VALID (hw s1) in
      Some (len, set_hw hw3 s1)
    else Some (len, s).

Definition usb_cdcacm_data_available (s : vcom) : Z := newBytes s.

Definition usb_cdcacm_get_pending (s : vcom) : Z := u16 (countTx s).

(** The copy loop of [usb_cdcacm_rx]: [n] iterations are left, [i] is the
    loop counter; the result lists the bytes stored to [buf[i]],
    [buf[i+1]], ...  A read outside [vcomBufferRx] gives [None]. *)
Fixpoint rx_copy (n : nat) (i : Z) (off : Z) (src : list Z)
    : option (list Z) :=
  match n with
  | O => Some []
  | S n' =>
      b ← src !! Z.to_nat (u32 (i + off));
      rest ← rx_copy n' (i + 1) off src;
      Some (b :: rest)
  end.

(** [usb_cdcacm_rx]: the result is the bytes stored to the head of the
    caller's [buf], the returned count, and the new state. *)
Definition usb_cdcacm_rx (len : Z) (s : vcom) : option (list Z * Z * vcom) :=
  let len := if decide (len > newBytes s) then newBytes s else len in
  out ← rx_copy (Z.to_nat len) 0 (rx_offset s) (vcomBufferRx s);
  let s1 := set_newBytes (u32 (newBytes s - len)) s in
  let s2 := set_rx_offset (u32 (rx_offset s1 + len)) s1 in
  let s3 :=
    if decide (newBytes s2 = 0) then
      let hw1 := usb_set_ep_rx_count VCOM_RX_ENDP VCOM_RX_EPSIZE (hw s2) in
      let hw2 := usb_set_ep_rx_stat VCOM_RX_ENDP USB_EP_STAT_RX_VALID hw1 in
      set_rx_offset 0 (set_hw hw2 s2)
    else s2 in
  Some (out, len, s3).

Definition usb_cdcacm_get_dtr (s : vcom) : Z :=
  if decide (Z.land (line_dtr_rts s) CONTROL_LINE_DTR <> 0) then 1 else 0.

Definition usb_cdcacm_get_rts (s : vcom) : Z :=
  if decide (Z.land (line_dtr_rts s) CONTROL_LINE_RTS <> 0) then 1 else 0.

(** *** Callbacks *)

Definition vcomDataTxCb (s : vcom) : vcom := set_countTx 0 s.

Definition vcomDataRxCb (s : vcom) : option vcom :=
  let s1 := set_newBytes (usb_get_ep_rx_count (hw s) VCOM_RX_ENDP) s in
  let s2 :=
    set_hw (usb_set_ep_rx_stat VCOM_RX_ENDP USB_EP_STAT_RX_NAK (hw s1)) s1 in
  buf ← usb_copy_from_pma (vcomBufferRx s2) (u16 (newBytes s2))
          VCOM_RX_ADDR (hw s2);
  Some (set_vcomBufferRx buf s2).

(** The transition of the reset detector in [usbNoDataSetup]. *)
Definition dtr_next (st : RESET_STATE) (new_signal : Z) : RESET_STATE :=
  match st with
  | DTR_UNSET =>
      if decide (Z.land new_signal CONTROL_LINE_DTR = 0)
      then DTR_LOW else DTR_HIGH
  | DTR_HIGH =>
      if decide (Z.land new_signal CONTROL_LINE_DTR = 0)
      then DTR_NEGEDGE else DTR_HIGH
  | DTR_NEGEDGE =>
      if decide (Z.land new_signal CONTROL_LINE_DTR = 0)
      then DTR_LOW else DTR_HIGH
  | DTR_LOW =>
      if decide (Z.land new_signal CONTROL_LINE_DTR = 0)
      then DTR_LOW else DTR_HIGH
  end.

Section WithUsbLib.
Context `{UsbLib}.

(** The endpoint set-up of [usbReset], in program order.
    [pProperty->MaxPacketSize] is the [MaxPacketSize] of this file's
    [Device_Property], that is [MAX_PACKET_SIZE]. *)
Definition usbReset_periph (p : usb_periph) : usb_periph :=
  let p := with_BTABLE BTABLE_ADDRESS p in
  (* control endpoint 0 *)
  let p := usb_set_ep_type USB_EP0 USB_EP_EP_TYPE_CONTROL p in
  let p := usb_set_ep_tx_stat USB_EP0 USB_EP_STAT_TX_STALL p in
  let p := usb_set_ep_rx_addr USB_EP0 VCOM_CTRL_RX_ADDR p in
  let p := usb_set_ep_tx_addr USB_EP0 VCOM_CTRL_TX_ADDR p in
  let p := usb_clear_status_out USB_EP0 p in
  let p := usb_set_ep_rx_count USB_EP0 MAX_PACKET_SIZE p in
  let p := usb_set_ep_rx_stat USB_EP0 USB_EP_STAT_RX_VALID p in
  (* management endpoint *)
  let p := usb_set_ep_type VCOM_NOTIFICATION_ENDP USB_EP_EP_TYPE_INTERRUPT p in
  let p := usb_set_ep_tx_addr VCOM_NOTIFICATION_ENDP VCOM_NOTIFICATION_ADDR p in
  let p := usb_set_ep_tx_stat VCOM_NOTIFICATION_ENDP USB_EP_STAT_TX_NAK p in
  let p := usb_set_ep_rx_stat VCOM_NOTIFICATION_ENDP USB_EP_STAT_RX_DISABLED p in
  (* data endpoint OUT (RX) *)
  let p := usb_set_ep_type VCOM_RX_ENDP USB_EP_EP_TYPE_BULK p in
  let p := usb_set_ep_rx_addr VCOM_RX_ENDP 0x110 p in
  let p := usb_set_ep_rx_count VCOM_RX_ENDP 64 p in
  let p := usb_set_ep_rx_stat VCOM_RX_ENDP USB_EP_STAT_RX_VALID p in
  (* data endpoint IN (TX) *)
  let p := usb_set_ep_type VCOM_TX_ENDP USB_EP_EP_TYPE_BULK p in
  let p := usb_set_ep_tx_addr VCOM_TX_ENDP VCOM_TX_ADDR p in
  let p := usb_set_ep_tx_stat VCOM_TX_ENDP USB_EP_STAT_TX_NAK p in
  let p := usb_set_ep_rx_stat VCOM_TX_ENDP USB_EP_STAT_RX_DISABLED p in
  p.

Definition usbReset (s : vcom) : vcom :=
  let s := set_Current_Configuration 0 s in
  let s := set_Current_Feature
             (Z.lor USB_CONFIG_ATTR_BUSPOWERED USB_CONFIG_ATTR_SELF_POWERED)
             s in
  let s := set_hw (usbReset_periph (hw s)) s in
  let s := set_usblib_state USB_ATTACHED s in
  let s := set_hw (SetDeviceAddress 0 (hw s)) s in
  (* reset the rx fifo *)
  let s := set_recvBufIn 0 s in
  let s := set_recvBufOut 0 s in
  let s := set_maxNewBytes VCOM_RX_EPSIZE s in
  let s := set_countTx 0 s in
  s.

(** [usbNoDataSetup]: [Type_Recipient] is the value of the stack's macro
    of that name for the request being served, and [bb0] is
    [pInformation->USBwValues.bw.bb0], the byte of the request's value
    field that carries the line bits. *)
Definition usbNoDataSetup (Type_Recipient request bb0 : Z) (s : vcom)
    : RESULT * vcom :=
  if decide (Type_Recipient = Z.lor CLASS_REQUEST INTERFACE_RECIPIENT) then
    if decide (request = SET_COMM_FEATURE) then (USB_SUCCESS, s)
    else if decide (request = SET_CONTROL_LINE_STATE) then
      let new_signal :=
        Z.land bb0 (Z.lor CONTROL_LINE_DTR CONTROL_LINE_RTS) in
      let s := set_line_dtr_rts (Z.land new_signal 0x03) s in
      let s := set_reset_state (dtr_next (reset_state s) new_signal) s in
      (USB_SUCCESS, s)
    else (USB_UNSUPPORT, s)
  else (USB_UNSUPPORT, s).

(** *** The entry points as one transition system

    The calls and callbacks through which the rest of the firmware and the
    USB stack reach the state of the serial flow controller and of the
    line state monitor.  [OpRxCb p] is the RX-complete interrupt: by then
    the peripheral has become [p], holding the packet and its byte
    count, and [vcomDataRxCb] runs on it. *)
Inductive op : Type :=
  | OpTx (buf : list Z) (len : Z)
  | OpRx (len : Z)
  | OpTxCb
  | OpRxCb (p : usb_periph)
  | OpNoDataSetup (Type_Recipient request bb0 : Z)
  | OpReset.

Definition step (o : op) (s : vcom) : option vcom :=
  match o with
  | OpTx buf len => snd <$> usb_cdcacm_tx buf len s
  | OpRx len => snd <$> usb_cdcacm_rx len s
  | OpTxCb => Some (vcomDataTxCb s)
  | OpRxCb p => vcomDataRxCb (set_hw p s)
  | OpNoDataSetup tr rq b => Some (snd (usbNoDataSetup tr rq b s))
  | OpReset => Some (usbReset s)
  end.

(** Running a list of operations from left to right. *)
Fixpoint run (os : list op) (s : vcom) : option vcom :=
  match os with
  | [] => Some s
  | o :: os' => s' ← step o s; run os' s'
  end.

(** The reset detector driven by a list of values of [bb0]: the states
    visited, in order. *)
Fixpoint dtr_trace (bs : list Z) (s : vcom) : list RESET_STATE :=
  match bs with
  | [] => []
  | b :: bs' =>
      let s' := snd (usbNoDataSetup
                       (Z.lor CLASS_REQUEST INTERFACE_RECIPIENT)
                       SET_CONTROL_LINE_STATE b s) in
      reset_state s' :: dtr_trace bs' s'
  end.

(** Successive calls of [usb_cdcacm_rx] with the requested lengths
    [lens]: the returned counts, the bytes handed out, concatenated in
    call order, and the final state. *)
Fixpoint rx_calls (lens : list Z) (s : vcom)
    : option (list Z * list Z * vcom) :=
  match lens with
  | [] => Some ([], [], s)
  | len :: lens' =>
      '(out, n, s') ← usb_cdcacm_rx len s;
      '(ns, outs, s'') ← rx_calls lens' s';
      Some (n :: ns, out ++ outs, s'')
  end.

End WithUsbLib.

(** ** Observations and environment used in the statements *)

(** The status fields of an endpoint register. *)
Definition ep_stat_rx (p : usb_periph) (ep : Z) : Z :=
  Z.land (EP p ep) USB_EP_STAT_RX.
Definition ep_stat_tx (p : usb_periph) (ep : Z) : Z :=
  Z.land (EP p ep) USB_EP_STAT_TX.

(** The fields of an endpoint register other than the RX status, and other
    than the TX status, each given by its mask. *)
Definition rx_stat_others : list Z :=
  [USB_EP_STAT_TX; USB_EP_DTOG_RX; USB_EP_DTOG_TX; USB_EP_CTR_RX;
   USB_EP_CTR_TX; USB_EP_EP_TYPE; USB_EP_EP_KIND; USB_EP_SETUP; USB_EP_EA].
Definition tx_stat_others : list Z :=
  [USB_EP_STAT_RX; USB_EP_DTOG_RX; USB_EP_DTOG_TX; USB_EP_CTR_RX;
   USB_EP_CTR_TX; USB_EP_EP_TYPE; USB_EP_EP_KIND; USB_EP_SETUP; USB_EP_EA].

(** Two register values agree on every field of a list of masks. *)
Definition same_fields (ms : list Z) (r r' : Z) : Prop :=
  Forall (fun m => Z.land r' m = Z.land r m) ms.

(** The peripheral receiving a packet on the data OUT endpoint: the bytes
    land in that endpoint's buffer at [VCOM_RX_ADDR], packed as by
    [pma_pack], and the low ten bits of the slot's [count_rx] field receive
    the number of bytes. *)
Definition hw_rx_packet (data : list Z) (p : usb_periph) : usb_periph :=
  let p1 := with_pma (pma_pack data (usb_pma_ptr VCOM_RX_ADDR) (pma p)) p in
  let c := usb_ep_rx_count_ptr p1 VCOM_RX_ENDP in
  pma_store c (Z.lor (Z.land (pma p1 c) (Z.lnot 0x3FF))
                     (Z.of_nat (length data))) p1.

(** An instance of the USB stack to run the model on concrete inputs: the
    address routine rewrites the EA field of the first four endpoint
    registers, the constants are those of the USB standard. *)
Definition set_ep_address (a : Z) (p : usb_periph) : usb_periph :=
  write_EP a
    (Z.lor (Z.lor __EP_CTR_NOP (Z.land (EP p a) __EP_NONTOGGLE)) a) p.

Definition usblib_eval : UsbLib :=
  {| SetDeviceAddress := fun _ p =>
       set_ep_address 3 (set_ep_address 2 (set_ep_address 1
         (set_ep_address 0 p)));
     USB_CONFIG_ATTR_BUSPOWERED := 0x80;
     USB_CONFIG_ATTR_SELF_POWERED := 0xC0;
     CLASS_REQUEST := 0x20;
     INTERFACE_RECIPIENT := 0x01 |}.

(** A peripheral with every register and every packet-memory word zero,
    and one with given endpoint registers. *)
Definition periph0 : usb_periph := mk_periph (fun _ => 0) 0 (fun _ => 0).

(** The core's mutable bookkeeping, as one tuple: the TX in-flight counter,
    the RX available count, the RX read cursor, the ring-buffer fields, the
    line bits and the reset detector. *)
Definition core_fields (s : vcom)
    : Z * Z * Z * Z * Z * Z * Z * RESET_STATE :=
  (countTx s, newBytes s, rx_offset s, recvBufIn s, recvBufOut s,
   maxNewBytes s, line_dtr_rts s, reset_state s).

(** The counts that successive calls of [usb_cdcacm_rx] are to return when
    [avail] bytes are available before the first: each the smaller of the
    requested length and what is left. *)
Fixpoint rx_expected_counts (lens : list Z) (avail : Z) : list Z :=
  match lens with
  | [] => []
  | len :: lens' =>
      Z.min len avail :: rx_expected_counts lens' (avail - Z.min len avail)
  end.

Definition Zsum (l : list Z) : Z := foldr Z.add 0 l.


Section Discipline.
Context `{UsbLib}.

(** States reached from device initialisation when an RX-complete
    interrupt fires only while nothing is left to read and reports at most
    [VCOM_RX_EPSIZE] bytes; calls of [usb_cdcacm_rx] and bus resets may
    come at any time. *)
Inductive rx_disc_reach : vcom -> Prop :=
  | rx_disc_init (hw0 : usb_periph) (cfg feat : Z) (st : usb_dev_state) :
      rx_disc_reach (vcom_init hw0 cfg feat st)
  | rx_disc_cb (s : vcom) (p : usb_periph) (s' : vcom) :
      rx_disc_reach s ->
      newBytes s = 0 ->
      usb_get_ep_rx_count p VCOM_RX_ENDP <= VCOM_RX_EPSIZE ->
      vcomDataRxCb (set_hw p s) = Some s' ->
      rx_disc_reach s'
  | rx_disc_rx (s : vcom) (len : Z) (out : list Z) (n : Z) (s' : vcom) :
      rx_disc_reach s ->
      0 <= len < 2 ^ 32 ->
      usb_cdcacm_rx len s = Some (out, n, s') ->
      rx_disc_reach s'
  | rx_disc_reset (s : vcom) :
      rx_disc_reach s ->
      rx_disc_reach (usbReset s).
End Discipline.

(** The state after the peripheral has received [data] and the RX-complete
    interrupt has run; the state itself when the callback's store leaves
    the receive buffer. *)
Definition after_rx_packet (data : list Z) (s : vcom) : vcom :=
  default s (vcomDataRxCb (set_hw (hw_rx_packet data (hw s)) s)).


(** The invariant of the read window: the cursor and the available count
    together stay within one packet, the cursor is back at 0 whenever
    nothing is left, and the receive buffer has its declared size. *)
Definition rx_window_inv (s : vcom) : Prop :=
  0 <= newBytes s /\
  0 <= rx_offset s /\
  rx_offset s + newBytes s <= VCOM_RX_EPSIZE /\
  (newBytes s = 0 -> rx_offset s = 0) /\
  length (vcomBufferRx s) = Z.to_nat VCOM_RX_BUFLEN.

(** ** The rest of the two files *)

(** The type and kind fields of an endpoint register. *)
Definition ep_type (p : usb_periph) (ep : Z) : Z :=
  Z.land (EP p ep) USB_EP_EP_TYPE.
Definition ep_kind (p : usb_periph) (ep : Z) : Z :=
  Z.land (EP p ep) USB_EP_EP_KIND.

(** The four fields of a slot of the buffer descriptor table, with the
    accessors of [usb_reg_map.h] gathered by field. *)
Inductive bdt_field : Type :=
  | BDT_TX_ADDR
  | BDT_TX_COUNT
  | BDT_RX_ADDR
  | BDT_RX_COUNT.

Definition bdt_ptr (p : usb_periph) (f : bdt_field) (ep : Z) : Z :=
  match f with
  | BDT_TX_ADDR => usb_ep_tx_addr_ptr p ep
  | BDT_TX_COUNT => usb_ep_tx_count_ptr p ep
  | BDT_RX_ADDR => usb_ep_rx_addr_ptr p ep
  | BDT_RX_COUNT => usb_ep_rx_count_ptr p ep
  end.

Definition bdt_get (p : usb_periph) (f : bdt_field) (ep : Z) : Z :=
  match f with
  | BDT_TX_ADDR => usb_get_ep_tx_addr p ep
  | BDT_TX_COUNT => usb_get_ep_tx_count p ep
  | BDT_RX_ADDR => usb_get_ep_rx_addr p ep
  | BDT_RX_COUNT => usb_get_ep_rx_count p ep
  end.

(** The three setters whose bodies are in [usb_reg_map.h]. *)
Inductive bdt_setter : Type :=
  | SET_TX_ADDR
  | SET_TX_COUNT
  | SET_RX_ADDR.

Definition bdt_setter_field (f : bdt_setter) : bdt_field :=
  match f with
  | SET_TX_ADDR => BDT_TX_ADDR
  | SET_TX_COUNT => BDT_TX_COUNT
  | SET_RX_ADDR => BDT_RX_ADDR
  end.

Definition bdt_set (f : bdt_setter) (ep v : Z) (p : usb_periph)
    : usb_periph :=
  match f with
  | SET_TX_ADDR => usb_set_ep_tx_addr ep v p
  | SET_TX_COUNT => usb_set_ep_tx_count ep v p
  | SET_RX_ADDR => usb_set_ep_rx_addr ep v p
  end.

(** [usb_cdcacm_putc]: the loop [while (!usb_cdcacm_tx(&ch, 1));].  Each
    iteration calls [usb_cdcacm_tx] on the one-byte buffer holding [ch] and
    the loop ends with the first call that returns a nonzero count.  [fuel]
    bounds the iterations the model follows; [None] stands for a loop that
    is still running when they are spent. *)
Fixpoint usb_cdcacm_putc (fuel : nat) (ch : Z) (s : vcom) : option vcom :=
  match fuel with
  | O => None
  | S fuel' =>
      '(n, s') ← usb_cdcacm_tx [u8 ch] 1 s;
      if decide (n = 0) then usb_cdcacm_putc fuel' ch s' else Some s'
  end.

Definition usbSetConfiguration (s : vcom) : vcom :=
  if decide (Current_Configuration s <> 0)
  then set_usblib_state USB_CONFIGURED s
  else s.

Definition usbSetDeviceAddress (s : vcom) : vcom :=
  set_usblib_state USB_ADDRESSED s.

Definition set_last_request (v : Z) (s : vcom) : vcom :=
  mk_vcom (hw s) (Current_Configuration s) (Current_Feature s) (usblib_state s)
    v (line_coding s) (vcomBufferRx s) (countTx s)
    (recvBufIn s) (recvBufOut s) (maxNewBytes s) (newBytes s)
    (reset_state s) (line_dtr_rts s) (rx_offset s).

(** The copy routines that [pInformation->Ctrl_Info.CopyData] can hold:
    none, this file's [vcomGetSetLineCoding], or a routine of the USB stack,
    told apart by a tag. *)
Inductive copy_routine : Type :=
  | CopyRoutine_NULL
  | CopyRoutine_vcomGetSetLineCoding
  | CopyRoutine_of_stack (tag : Z).

(** The three fields of [pInformation->Ctrl_Info] that this file writes. *)
Record ctrl_info : Type := mk_ctrl_info {
  CopyData : copy_routine;
  Usb_wOffset : Z;
  Usb_wLength : Z
}.

(** [vcomGetSetLineCoding]: the pointer it returns is always
    [&line_coding]; what the model keeps is its effect on [Ctrl_Info].
    [sizeof_line_coding] is [sizeof(USB_Line_Coding)], which the compiler
    fixes. *)
Definition vcomGetSetLineCoding (sizeof_line_coding length : Z)
    (ci : ctrl_info) : ctrl_info :=
  if decide (length = 0)
  then mk_ctrl_info (CopyData ci) (Usb_wOffset ci) sizeof_line_coding
  else ci.

Section DataSetup.
Context `{UsbLib}.

(** [usbDataSetup]: the result, the state and [Ctrl_Info] afterwards.
    The local [CopyRoutine] is either null or [vcomGetSetLineCoding]. *)
Definition usbDataSetup (sizeof_line_coding Type_Recipient request : Z)
    (s : vcom) (ci : ctrl_info) : RESULT * vcom * ctrl_info :=
  let '(CopyRoutine, s) :=
    if decide (Type_Recipient = Z.lor CLASS_REQUEST INTERFACE_RECIPIENT) then
      if decide (request = GET_LINE_CODING) then
        (CopyRoutine_vcomGetSetLineCoding,
         set_last_request GET_LINE_CODING s)
      else if decide (request = SET_LINE_CODING) then
        (CopyRoutine_vcomGetSetLineCoding,
         set_last_request SET_LINE_CODING s)
      else (CopyRoutine_NULL, s)
    else (CopyRoutine_NULL, s) in
  match CopyRoutine with
  | CopyRoutine_NULL => (USB_UNSUPPORT, s, ci)
  | _ =>
      let ci := mk_ctrl_info CopyRoutine (Usb_wOffset ci) (Usb_wLength ci) in
      let ci := mk_ctrl_info (CopyData ci) 0 (Usb_wLength ci) in
      let ci := vcomGetSetLineCoding sizeof_line_coding 0 ci in
      (USB_SUCCESS, s, ci)
  end.
End DataSetup.

(** Operations whose length argument is a value of [uint32_t]. *)
Definition op_wf (o : op) : Prop :=
  match o with
  | OpTx _ len => 0 <= len < 2 ^ 32
  | OpRx len => 0 <= len < 2 ^ 32
  | _ => True
  end.

(** The fields of an endpoint register other than the type, other than the
    kind, and other than each of the two CTR flags. *)
Definition type_others : list Z :=
  [USB_EP_STAT_RX; USB_EP_STAT_TX; USB_EP_DTOG_RX; USB_EP_DTOG_TX;
   USB_EP_CTR_RX; USB_EP_CTR_TX; USB_EP_EP_KIND; USB_EP_SETUP; USB_EP_EA].
Definition kind_others : list Z :=
  [USB_EP_STAT_RX; USB_EP_STAT_TX; USB_EP_DTOG_RX; USB_EP_DTOG_TX;
   USB_EP_CTR_RX; USB_EP_CTR_TX; USB_EP_EP_TYPE; USB_EP_SETUP; USB_EP_EA].
Definition ctr_rx_others : list Z :=
  [USB_EP_STAT_RX; USB_EP_STAT_TX; USB_EP_DTOG_RX; USB_EP_DTOG_TX;
   USB_EP_CTR_TX; USB_EP_EP_TYPE; USB_EP_EP_KIND; USB_EP_SETUP; USB_EP_EA].
Definition ctr_tx_others : list Z :=
  [USB_EP_STAT_RX; USB_EP_STAT_TX; USB_EP_DTOG_RX; USB_EP_DTOG_TX;
   USB_EP_CTR_RX; USB_EP_EP_TYPE; USB_EP_EP_KIND; USB_EP_SETUP; USB_EP_EA].

(** The fields of an endpoint register that the endpoint set-up of
    [usbReset] writes to on no endpoint. *)
Definition reset_untouched : list Z :=
  [USB_EP_DTOG_RX; USB_EP_DTOG_TX; USB_EP_CTR_RX; USB_EP_CTR_TX;
   USB_EP_SETUP; USB_EP_EA].

(** The line state monitor's invariant: the line bits are a 2-bit value, the
    detector is at HIGH exactly while DTR is set, and it is at UNSET only
    while no line bit has been stored. *)
Definition line_inv (s : vcom) : Prop :=
  0 <= line_dtr_rts s <= 3 /\
  (reset_state s = DTR_HIGH <-> usb_cdcacm_get_dtr s = 1) /\
  (reset_state s = DTR_UNSET -> line_dtr_rts s = 0).

(** * Properties *)

(** ** Bit-level facts about the endpoint register *)

Lemma testbit_u16_high (c n : Z) :
  0 <= c < 2 ^ 16 -> 16 <= n -> Z.testbit c n = false.
Proof.
  intros Hc Hn. destruct (decide (c = 0)) as [->|Hne].
  - apply Z.bits_0.
  - apply Z.bits_above_log2; [lia|].
    assert (Z.log2 c < 16) by (apply Z.log2_lt_pow2; lia). lia.
Qed.

(** Two values agree under a 16-bit mask as soon as they agree on each of
    the sixteen low bits that the mask selects. *)
Lemma land_mask_ext (m x y : Z) :
  0 <= m < 2 ^ 16 ->
  (forall n, 0 <= n < 16 -> Z.testbit m n = true ->
             Z.testbit x n = Z.testbit y n) ->
  Z.land x m = Z.land y m.
Proof.
  intros Hm Hbits. apply Z.bits_inj'. intros n Hn.
  rewrite !Z.land_spec.
  destruct (Z.testbit m n) eqn:Hmn; [|by rewrite !andb_false_r].
  rewrite !andb_true_r. apply Hbits; [|done].
  destruct (decide (n < 16)); [lia|].
  rewrite testbit_u16_high in Hmn by lia. done.
Qed.

(** A property of the sixteen bit positions of a register holds as soon as
    it holds at each position of [seqZ 0 16]. *)
Lemma below_16_ind (P : Z -> Prop) :
  Forall P (seqZ 0 16) -> forall n, 0 <= n < 16 -> P n.
Proof. intros HF n Hn. rewrite Forall_seqZ in HF. apply HF. lia. Qed.

(** One bit position [k]: rewrite the bitwise operations away, abstract the
    bit of [r], and decide the rest by evaluation. *)
Ltac epr_bit r :=
  intros Hm;
  repeat (rewrite ?Z.land_spec, ?Z.lor_spec, ?Z.lxor_spec);
  repeat (rewrite Z.lnot_spec by lia);
  repeat (rewrite ?Z.land_spec, ?Z.lor_spec, ?Z.lxor_spec);
  revert Hm;
  match goal with
  | |- context [Z.testbit r ?k] =>
      generalize (Z.testbit r k); intros b; destruct b
  | _ => idtac
  end;
  vm_compute; congruence.

(** Solves [Z.land (f r) m = Z.land (g r) m] for closed 16-bit masks and
    [f], [g] built from bitwise operations on [r] and constants. *)
Ltac epr_bits r :=
  apply land_mask_ext; [by vm_compute|];
  refine (below_16_ind _ _);
  let l := eval vm_compute in (seqZ 0 16) in
  change (seqZ 0 16) with l;
  repeat (apply Forall_cons_2; [epr_bit r|]);
  apply Forall_nil_2.

Lemma EP_write_EP_eq (ep w : Z) (p : usb_periph) :
  EP (write_EP ep w p) ep = epr_hw_write (EP p ep) w.
Proof. unfold write_EP. simpl. by rewrite fn_lookup_insert. Qed.

Lemma EP_write_EP_ne (ep ep' w : Z) (p : usb_periph) :
  ep <> ep' -> EP (write_EP ep w p) ep' = EP p ep'.
Proof. intros Hne. unfold write_EP. simpl. by rewrite fn_lookup_insert_ne. Qed.

Lemma two_bit_cases (s : Z) : 0 <= s < 4 -> s = 0 \/ s = 1 \/ s = 2 \/ s = 3.
Proof. lia. Qed.

(** What [usb_set_ep_rx_stat] leaves in the register it writes. *)
Lemma usb_set_ep_rx_stat_reg (p : usb_periph) (ep s : Z) :
  0 <= s < 4 ->
  let r' := EP (usb_set_ep_rx_stat ep (Z.shiftl s 12) p) ep in
  Z.land r' USB_EP_STAT_RX = Z.shiftl s 12 /\
  same_fields rx_stat_others (EP p ep) r'.
Proof.
  intros Hs r'. subst r'. unfold usb_set_ep_rx_stat.
  rewrite EP_write_EP_eq. generalize (EP p ep) as r. intros r.
  unfold epr_hw_write, same_fields, rx_stat_others.
  apply two_bit_cases in Hs as [-> | [-> | [-> | ->]]];
    (split;
     [ assert (forall c, Z.land c USB_EP_STAT_RX = c -> forall x,
                 Z.land x USB_EP_STAT_RX = Z.land c USB_EP_STAT_RX ->
                 Z.land x USB_EP_STAT_RX = c) as Hc by (intros; congruence);
       apply Hc; [done|]; epr_bits r
     | repeat (apply Forall_cons_2; [cbv beta; epr_bits r|]); apply Forall_nil_2 ]).
Qed.

(** What [usb_set_ep_tx_stat] leaves in the register it writes. *)
Lemma usb_set_ep_tx_stat_reg (p : usb_periph) (ep s : Z) :
  0 <= s < 4 ->
  let r' := EP (usb_set_ep_tx_stat ep (Z.shiftl s 4) p) ep in
  Z.land r' USB_EP_STAT_TX = Z.shiftl s 4 /\
  same_fields tx_stat_others (EP p ep) r'.
Proof.
  intros Hs r'. subst r'. unfold usb_set_ep_tx_stat.
  rewrite EP_write_EP_eq. generalize (EP p ep) as r. intros r.
  unfold epr_hw_write, same_fields, tx_stat_others.
  apply two_bit_cases in Hs as [-> | [-> | [-> | ->]]];
    (split;
     [ assert (forall c, Z.land c USB_EP_STAT_TX = c -> forall x,
                 Z.land x USB_EP_STAT_TX = Z.land c USB_EP_STAT_TX ->
                 Z.land x USB_EP_STAT_TX = c) as Hc by (intros; congruence);
       apply Hc; [done|]; epr_bits r
     | repeat (apply Forall_cons_2; [cbv beta; epr_bits r|]); apply Forall_nil_2 ]).
Qed.

(** C1.  Setting the RX status (resp. the TX status) of an endpoint to any
    of the four 2-bit statuses and then reading the register, under the
    write semantics of the hardware, gives exactly the requested status in
    that direction; the status of the other direction, both data-toggle
    bits, both CTR flags, the endpoint type, kind, setup flag and address
    of that register are as before. *)
Theorem usb_set_ep_stat_exact (p : usb_periph) (ep s : Z) :
  0 <= s < 4 ->
  (ep_stat_rx (usb_set_ep_rx_stat ep (Z.shiftl s 12) p) ep = Z.shiftl s 12 /\
   same_fields rx_stat_others (EP p ep)
     (EP (usb_set_ep_rx_stat ep (Z.shiftl s 12) p) ep)) /\
  (ep_stat_tx (usb_set_ep_tx_stat ep (Z.shiftl s 4) p) ep = Z.shiftl s 4 /\
   same_fields tx_stat_others (EP p ep)
     (EP (usb_set_ep_tx_stat ep (Z.shiftl s 4) p) ep)).
Proof.
  intros Hs. split.
  - apply (usb_set_ep_rx_stat_reg p ep s Hs).
  - apply (usb_set_ep_tx_stat_reg p ep s Hs).
Qed.

Lemma usb_set_ep_stat_exact_witness :
  let p := with_EP (<[3 := 0xEA63]> (fun _ => 0)) periph0 in
  (ep_stat_rx (usb_set_ep_rx_stat 3 (Z.shiftl 3 12) p) 3 = Z.shiftl 3 12 /\
   same_fields rx_stat_others (EP p 3)
     (EP (usb_set_ep_rx_stat 3 (Z.shiftl 3 12) p) 3)) /\
  (ep_stat_tx (usb_set_ep_tx_stat 3 (Z.shiftl 3 4) p) 3 = Z.shiftl 3 4 /\
   same_fields tx_stat_others (EP p 3)
     (EP (usb_set_ep_tx_stat 3 (Z.shiftl 3 4) p) 3)).
Proof.
  intros p. apply (usb_set_ep_stat_exact p 3 3). lia.
Defined.

(** ** Buffer descriptor table *)

Lemma u32_small (x : Z) : 0 <= x < 2 ^ 32 -> u32 x = x.
Proof. intros. unfold u32. by apply Z.mod_small. Qed.

Lemma u16_small (x : Z) : 0 <= x < 2 ^ 16 -> u16 x = x.
Proof. intros. unfold u16. by apply Z.mod_small. Qed.

Lemma usb_btable_ptr_small (p : usb_periph) (off : Z) :
  0 <= BTABLE p < 2 ^ 16 -> 0 <= off < 2 ^ 16 ->
  usb_btable_ptr p off = USB_PMA_BASE + 2 * (BTABLE p + off).
Proof.
  intros Hb Ho. unfold usb_btable_ptr, usb_pma_ptr.
  rewrite (u32_small (BTABLE p + off)) by lia.
  rewrite u32_small by lia. done.
Qed.

Lemma clear_low_bit (a : Z) :
  0 <= a < 2 ^ 16 ->
  0 <= Z.land a (Z.lnot 0x1) < 2 ^ 16 /\
  Z.testbit (Z.land a (Z.lnot 0x1)) 0 = false /\
  (forall n, 0 < n -> Z.testbit (Z.land a (Z.lnot 0x1)) n = Z.testbit a n).
Proof.
  intros Ha.
  assert (Z.land a (Z.lnot 1) = 2 * (a `div` 2)) as Heq.
  { rewrite <- Z.ldiff_land. change 1 with (Z.ones 1) at 1.
    rewrite Z.ldiff_ones_r, Z.shiftr_div_pow2, Z.shiftl_mul_pow2 by lia.
    change (2 ^ 1) with 2. lia. }
  split; [rewrite Heq; Z.div_mod_to_equations; lia|].
  split.
  - rewrite Z.land_spec, Z.lnot_spec by lia. simpl. apply andb_false_r.
  - intros n Hn. rewrite Z.land_spec, Z.lnot_spec by lia.
    destruct n as [|n|n]; try lia. simpl. apply andb_true_r.
Qed.

(** C8.  The four accessors of an endpoint's slot point at offsets
    [ep*8 + 0] (tx_addr), [ep*8 + 2] (tx_count), [ep*8 + 4] (rx_addr) and
    [ep*8 + 6] (rx_count) from the table base, each location being
    [USB_PMA_BASE + 2 * offset]; the address setters store the address with
    bit 0 cleared, so that the getter returns it with bit 0 cleared whether
    it was even or odd. *)
Theorem bdt_slot_layout (p : usb_periph) (ep addr : Z) :
  0 <= ep < 2 ^ 8 -> 0 <= BTABLE p < 2 ^ 16 -> 0 <= addr < 2 ^ 16 ->
  usb_ep_tx_addr_ptr p ep = USB_PMA_BASE + 2 * (BTABLE p + (ep * 8 + 0)) /\
  usb_ep_tx_count_ptr p ep = USB_PMA_BASE + 2 * (BTABLE p + (ep * 8 + 2)) /\
  usb_ep_rx_addr_ptr p ep = USB_PMA_BASE + 2 * (BTABLE p + (ep * 8 + 4)) /\
  usb_ep_rx_count_ptr p ep = USB_PMA_BASE + 2 * (BTABLE p + (ep * 8 + 6)) /\
  usb_get_ep_tx_addr (usb_set_ep_tx_addr ep addr p) ep
    = Z.land addr (Z.lnot 0x1) /\
  usb_get_ep_rx_addr (usb_set_ep_rx_addr ep addr p) ep
    = Z.land addr (Z.lnot 0x1) /\
  Z.testbit (Z.land addr (Z.lnot 0x1)) 0 = false /\
  (forall n, 0 < n ->
     Z.testbit (Z.land addr (Z.lnot 0x1)) n = Z.testbit addr n).
Proof.
  intros Hep Hb Ha.
  destruct (clear_low_bit addr Ha) as (Hr & H0 & Hn).
  unfold usb_ep_tx_addr_ptr, usb_ep_tx_count_ptr, usb_ep_rx_addr_ptr,
    usb_ep_rx_count_ptr.
  rewrite !usb_btable_ptr_small by lia.
  repeat split; try (f_equal; lia); try done.
  - unfold usb_get_ep_tx_addr, usb_set_ep_tx_addr, usb_ep_tx_addr_ptr,
      pma_store, usb_btable_ptr. simpl.
    rewrite fn_lookup_insert, u32_small, u16_small by lia. done.
  - unfold usb_get_ep_rx_addr, usb_set_ep_rx_addr, usb_ep_rx_addr_ptr,
      pma_store, usb_btable_ptr. simpl.
    rewrite fn_lookup_insert, u32_small, u16_small by lia. done.
Qed.

Lemma bdt_slot_layout_witness :
  let p := periph0 in
  usb_ep_tx_addr_ptr p 3 = USB_PMA_BASE + 2 * (BTABLE p + (3 * 8 + 0)) /\
  usb_ep_tx_count_ptr p 3 = USB_PMA_BASE + 2 * (BTABLE p + (3 * 8 + 2)) /\
  usb_ep_rx_addr_ptr p 3 = USB_PMA_BASE + 2 * (BTABLE p + (3 * 8 + 4)) /\
  usb_ep_rx_count_ptr p 3 = USB_PMA_BASE + 2 * (BTABLE p + (3 * 8 + 6)) /\
  usb_get_ep_tx_addr (usb_set_ep_tx_addr 3 0x111 p) 3
    = Z.land 0x111 (Z.lnot 0x1) /\
  usb_get_ep_rx_addr (usb_set_ep_rx_addr 3 0x111 p) 3
    = Z.land 0x111 (Z.lnot 0x1) /\
  Z.testbit (Z.land 0x111 (Z.lnot 0x1)) 0 = false /\
  (forall n, 0 < n ->
     Z.testbit (Z.land 0x111 (Z.lnot 0x1)) n = Z.testbit 0x111 n).
Proof.
  intros p. apply (bdt_slot_layout p 3 0x111); simpl; lia.
Defined.

(** ** Line state monitor *)

#[local] Arguments Z.testbit : simpl never.
#[local] Arguments Z.land : simpl never.
#[local] Arguments Z.lor : simpl never.

Lemma land_3_1 (b : Z) : Z.land (Z.land b 3) 1 = Z.land b 1.
Proof. by rewrite <- Z.land_assoc. Qed.

Lemma land_3_3 (b : Z) : Z.land (Z.land b 3) 3 = Z.land b 3.
Proof. by rewrite <- Z.land_assoc. Qed.

Lemma land_1_cases (b : Z) :
  (Z.land b 1 = 0 /\ Z.testbit b 0 = false) \/
  (Z.land b 1 <> 0 /\ Z.testbit b 0 = true).
Proof.
  change 1 with (Z.ones 1). rewrite Z.land_ones by lia.
  change (2 ^ 1) with 2. rewrite <- Z.bit0_mod.
  destruct (Z.testbit b 0); simpl; [right|left]; done.
Qed.

Lemma land_2_cases (b : Z) :
  (Z.land b 2 = 0 /\ Z.testbit b 1 = false) \/
  (Z.land b 2 <> 0 /\ Z.testbit b 1 = true).
Proof.
  destruct (Z.testbit b 1) eqn:Hb; [right|left]; split; try done.
  - intros H0. apply (f_equal (fun x => Z.testbit x 1)) in H0.
    rewrite Z.land_spec, Hb in H0. done.
  - apply Z.bits_inj'. intros n Hn. rewrite Z.land_spec, Z.bits_0.
    destruct (decide (n = 1)) as [->|Hne]; [by rewrite Hb|].
    change 2 with (2 ^ 1). rewrite Z.pow2_bits_false by lia.
    apply andb_false_r.
Qed.

(** The transition table of the spec (4.5), as a function of the current
    state and the new DTR bit. *)
Lemma dtr_next_table (st : RESET_STATE) (bb0 : Z) :
  dtr_next st (Z.land bb0 (Z.lor CONTROL_LINE_DTR CONTROL_LINE_RTS))
  = if Z.testbit bb0 0 then DTR_HIGH
    else match st with
         | DTR_HIGH => DTR_NEGEDGE
         | DTR_UNSET | DTR_NEGEDGE | DTR_LOW => DTR_LOW
         end.
Proof.
  change (Z.lor CONTROL_LINE_DTR CONTROL_LINE_RTS) with 3.
  unfold dtr_next, CONTROL_LINE_DTR. rewrite land_3_1.
  destruct (land_1_cases bb0) as [[Hz ->] | [Hnz ->]].
  - rewrite !decide_True by done. by destruct st.
  - rewrite !decide_False by done. by destruct st.
Qed.

Section LineState.
Context `{UsbLib}.

Lemma usbNoDataSetup_line_state (bb0 : Z) (s : vcom) :
  usbNoDataSetup (Z.lor CLASS_REQUEST INTERFACE_RECIPIENT)
    SET_CONTROL_LINE_STATE bb0 s
  = (USB_SUCCESS,
     set_reset_state
       (if Z.testbit bb0 0 then DTR_HIGH
        else match reset_state s with
             | DTR_HIGH => DTR_NEGEDGE
             | DTR_UNSET | DTR_NEGEDGE | DTR_LOW => DTR_LOW
             end)
       (set_line_dtr_rts (Z.land bb0 3) s)).
Proof.
  unfold usbNoDataSetup. rewrite decide_True by done.
  rewrite decide_False by done. rewrite decide_True by done.
  cbv zeta. f_equal.
  change (reset_state (set_line_dtr_rts ?v s)) with (reset_state s).
  rewrite dtr_next_table.
  change (Z.lor CONTROL_LINE_DTR CONTROL_LINE_RTS) with 3.
  by rewrite land_3_3.
Qed.

(** C6.  A SET_CONTROL_LINE_STATE request stores the DTR and RTS bits of
    the request's value field whatever the detector's state, then moves
    the detector by the new DTR bit alone: to HIGH when it is 1; when it
    is 0, from HIGH to NEGEDGE and from UNSET, NEGEDGE or LOW to LOW.
    Nothing else of the state changes.  From UNSET the bits 1, 0, 0, 1
    visit HIGH, NEGEDGE, LOW, HIGH. *)
Theorem line_state_monitor (s : vcom) (bb0 : Z) :
  let r := usbNoDataSetup (Z.lor CLASS_REQUEST INTERFACE_RECIPIENT)
             SET_CONTROL_LINE_STATE bb0 s in
  fst r = USB_SUCCESS /\
  line_dtr_rts (snd r) = Z.land bb0 (Z.lor CONTROL_LINE_DTR CONTROL_LINE_RTS) /\
  usb_cdcacm_get_dtr (snd r) = Z.b2z (Z.testbit bb0 0) /\
  usb_cdcacm_get_rts (snd r) = Z.b2z (Z.testbit bb0 1) /\
  reset_state (snd r)
  = (if Z.testbit bb0 0 then DTR_HIGH
     else match reset_state s with
          | DTR_HIGH => DTR_NEGEDGE
          | DTR_UNSET | DTR_NEGEDGE | DTR_LOW => DTR_LOW
          end) /\
  snd r = set_reset_state (reset_state (snd r))
            (set_line_dtr_rts (line_dtr_rts (snd r)) s) /\
  dtr_trace [1; 0; 0; 1] (set_reset_state DTR_UNSET s)
  = [DTR_HIGH; DTR_NEGEDGE; DTR_LOW; DTR_HIGH].
Proof.
  intros r. subst r. rewrite usbNoDataSetup_line_state. simpl.
  split_and!; try done.
  - unfold usb_cdcacm_get_dtr, CONTROL_LINE_DTR. simpl.
    rewrite land_3_1.
    destruct (land_1_cases bb0) as [[Hz ->] | [Hnz ->]].
    + by rewrite decide_False by (intros Hc; by apply Hc).
    + by rewrite decide_True.
  - unfold usb_cdcacm_get_rts, CONTROL_LINE_RTS. simpl.
    rewrite <- Z.land_assoc. change (Z.land 3 2) with 2.
    destruct (land_2_cases bb0) as [[Hz ->] | [Hnz ->]].
    + by rewrite decide_False by (intros Hc; by apply Hc).
    + by rewrite decide_True.
  - cbn [dtr_trace].
    repeat (rewrite usbNoDataSetup_line_state;
            cbn [snd reset_state set_reset_state set_line_dtr_rts]).
    reflexivity.
Qed.
End LineState.

(** ** Bus reset *)

Section Reset.
Context `{UsbLib}.

(** C7 (amended).  Whatever the state before, [usbReset] leaves the TX
    in-flight counter and the ring-buffer cursors [recvBufIn] and
    [recvBufOut] at the value they have at device initialisation; the
    line bits, the reset detector, the line coding and the last request
    are not reinitialised: they are as before the reset. *)
Theorem usbReset_core_state (s : vcom) (hw0 : usb_periph) (cfg feat : Z)
    (st : usb_dev_state) :
  countTx (usbReset s) = countTx (vcom_init hw0 cfg feat st) /\
  recvBufIn (usbReset s) = recvBufIn (vcom_init hw0 cfg feat st) /\
  recvBufOut (usbReset s) = recvBufOut (vcom_init hw0 cfg feat st) /\
  line_dtr_rts (usbReset s) = line_dtr_rts s /\
  reset_state (usbReset s) = reset_state s /\
  line_coding (usbReset s) = line_coding s /\
  last_request (usbReset s) = last_request s.
Proof. by split_and!. Qed.

Lemma usbReset_rx_fields (s : vcom) :
  newBytes (usbReset s) = newBytes s /\
  rx_offset (usbReset s) = rx_offset s /\
  vcomBufferRx (usbReset s) = vcomBufferRx s.
Proof. by split_and!. Qed.
End Reset.

(** C7, as stated, fails: after a SET_CONTROL_LINE_STATE request with DTR
    set, a bus reset does not bring the bookkeeping back to its values at
    device initialisation (the detector stays at HIGH, the line bits stay
    at 1). *)
Lemma usbReset_reinitialises_all_counterexample :
  let s0 := vcom_init periph0 0 0 USB_UNCONNECTED in
  let s := snd (usbNoDataSetup (H := usblib_eval) 0x21
                  SET_CONTROL_LINE_STATE 1 s0) in
  core_fields s0 = (0, 0, 0, 0, 0, 192, 0, DTR_UNSET) /\
  core_fields (usbReset (H := usblib_eval) s)
    = (0, 0, 0, 0, 0, 64, 1, DTR_HIGH) /\
  core_fields (usbReset (H := usblib_eval) s) <> core_fields s0.
Proof. split_and!; [reflexivity | reflexivity | by vm_compute]. Qed.

(** ** Transmit path *)

Lemma usb_cdcacm_rx_frame (len : Z) (s : vcom) (out : list Z) (n : Z)
    (s' : vcom) :
  usb_cdcacm_rx len s = Some (out, n, s') ->
  countTx s' = countTx s /\
  vcomBufferRx s' = vcomBufferRx s /\
  reset_state s' = reset_state s /\
  line_dtr_rts s' = line_dtr_rts s.
Proof.
  unfold usb_cdcacm_rx. intros Hrx.
  destruct (rx_copy _ _ _ _) as [o|]; [|done]. simpl in Hrx.
  injection Hrx as <- <- <-. by case_decide.
Qed.

Lemma vcomDataRxCb_frame (s s' : vcom) :
  vcomDataRxCb s = Some s' ->
  countTx s' = countTx s /\
  rx_offset s' = rx_offset s /\
  reset_state s' = reset_state s /\
  line_dtr_rts s' = line_dtr_rts s /\
  newBytes s' = usb_get_ep_rx_count (hw s) VCOM_RX_ENDP /\
  hw s' = usb_set_ep_rx_stat VCOM_RX_ENDP USB_EP_STAT_RX_NAK (hw s).
Proof.
  unfold vcomDataRxCb. intros Hcb.
  destruct (usb_copy_from_pma _ _ _ _) as [b|]; [|done]. simpl in Hcb.
  by injection Hcb as <-.
Qed.

Lemma usb_cdcacm_tx_busy (buf : list Z) (len : Z) (s : vcom) :
  countTx s <> 0 -> usb_cdcacm_tx buf len s = Some (0, s).
Proof. intros Hc. unfold usb_cdcacm_tx. by rewrite decide_True. Qed.

Section TxInFlight.
Context `{UsbLib}.

Lemma step_countTx (o : op) (s s' : vcom) :
  countTx s <> 0 -> step o s = Some s' ->
  match o with
  | OpTxCb | OpReset => countTx s' = 0
  | OpTx _ _ => s' = s
  | _ => countTx s' = countTx s
  end.
Proof.
  intros Hc Hstep. destruct o as [buf len|len| |p|tr rq b| ]; simpl in Hstep.
  - rewrite usb_cdcacm_tx_busy in Hstep by done. by injection Hstep.
  - destruct (usb_cdcacm_rx len s) as [[[out n] s1]|] eqn:Hrx; [|done].
    simpl in Hstep. injection Hstep as <-.
    by apply usb_cdcacm_rx_frame in Hrx as (-> & _).
  - by injection Hstep as <-.
  - by apply vcomDataRxCb_frame in Hstep as (-> & _).
  - injection Hstep as <-. unfold usbNoDataSetup.
    repeat case_decide; done.
  - by injection Hstep as <-.
Qed.
End TxInFlight.

(** *** Packing bytes into the packet memory *)

Lemma u8_land (x : Z) : Z.land x 0xFF = u8 x.
Proof. change 0xFF with (Z.ones 8). by rewrite Z.land_ones by lia. Qed.

Lemma u8_range (x : Z) : 0 <= u8 x < 2 ^ 8.
Proof. unfold u8. apply Z.mod_pos_bound. lia. Qed.

Lemma lane_low (lo hi : Z) :
  Z.land (Z.lor (u8 lo) (Z.shiftl (u8 hi) 8)) 0xFF = u8 lo.
Proof.
  rewrite Z.land_lor_distr_l.
  change 0xFF with (Z.ones 8).
  rewrite (Z.land_ones (Z.shiftl _ _)) by lia.
  rewrite Z.shiftl_mul_pow2 by lia. rewrite Z.mod_mul by lia.
  rewrite Z.lor_0_r, Z.land_ones by lia.
  apply Z.mod_small, u8_range.
Qed.

Lemma lane_high (lo hi : Z) :
  Z.land (Z.shiftr (Z.lor (u8 lo) (Z.shiftl (u8 hi) 8)) 8) 0xFF = u8 hi.
Proof.
  rewrite Z.shiftr_lor, Z.shiftr_shiftl_l by lia.
  change (8 - 8) with 0. rewrite Z.shiftl_0_r.
  rewrite Z.shiftr_div_pow2 by lia.
  rewrite (Z.div_small (u8 lo)) by apply u8_range.
  rewrite Z.lor_0_l. change 0xFF with (Z.ones 8).
  rewrite Z.land_ones by lia. apply Z.mod_small, u8_range.
Qed.

Lemma u8_idem (x : Z) : u8 (u8 x) = u8 x.
Proof. unfold u8. apply Z.mod_mod. lia. Qed.

(** Induction on a list two elements at a time, as [pma_pack] recurses. *)
Lemma list_pair_ind (P : list Z -> Prop) :
  P [] -> (forall b, P [b]) ->
  (forall lo hi rest, P rest -> P (lo :: hi :: rest)) ->
  forall l, P l.
Proof.
  intros Hnil Hone Hstep l.
  assert (P l /\ forall b, P (b :: l)) as [Hl _]; [|done].
  induction l as [|x l [IH1 IH2]]; split; auto.
Qed.

Lemma pma_pack_outside (data : list Z) :
  forall (p : Z) (m : Z -> Z) (a : Z),
    a < p \/ p + 2 * Z.of_nat (length data) <= a ->
    pma_pack data p m a = m a.
Proof.
  induction data as [|b|lo hi rest IH] using list_pair_ind;
    intros p m a Ha; simpl in *.
  - done.
  - rewrite fn_lookup_insert_ne by lia. done.
  - rewrite IH by lia. rewrite fn_lookup_insert_ne by lia. done.
Qed.

Lemma pma_unpack_ext (n : nat) :
  forall (p : Z) (m m' : Z -> Z),
    (forall a, p <= a < p + 2 * Z.of_nat n -> m a = m' a) ->
    pma_unpack n p m = pma_unpack n p m'.
Proof.
  induction n as [n IH] using lt_wf_ind. intros p m m' Hm.
  destruct n as [|[|n]]; simpl.
  - done.
  - rewrite Hm by lia. done.
  - rewrite Hm by lia. f_equal. f_equal. apply IH; [lia|].
    intros a Ha. apply Hm. lia.
Qed.

Lemma pma_unpack_pack (data : list Z) :
  forall (p : Z) (m : Z -> Z),
    pma_unpack (length data) p (pma_pack data p m) = u8 <$> data.
Proof.
  induction data as [|b|lo hi rest IH] using list_pair_ind;
    intros p m; simpl.
  - done.
  - by rewrite fn_lookup_insert, u8_land, u8_idem.
  - rewrite pma_pack_outside by lia. rewrite fn_lookup_insert.
    rewrite lane_low, lane_high, IH. done.
Qed.

Lemma pma_unpack_length (n : nat) :
  forall (p : Z) (m : Z -> Z), length (pma_unpack n p m) = n.
Proof.
  induction n as [n IH] using lt_wf_ind. intros p m.
  destruct n as [|[|n]]; simpl; try done.
  rewrite IH by lia. done.
Qed.

Lemma usb_cdcacm_tx_zero (buf : list Z) (s : vcom) :
  usb_cdcacm_tx buf 0 s = Some (0, s).
Proof.
  unfold usb_cdcacm_tx. case_decide; [done|].
  change (VCOM_TX_EPSIZE `quot` 2) with 32.
  rewrite (decide_False (P := 0 > 32)) by lia.
  by rewrite decide_False by (intros Hc; by apply Hc).
Qed.

(** The state that an accepted transmission of [n] bytes leaves. *)
Lemma usb_cdcacm_tx_idle (buf : list Z) (len : Z) (s : vcom) :
  countTx s = 0 -> 0 < len < 2 ^ 32 ->
  Z.min len 32 <= Z.of_nat (length buf) ->
  let n := Z.min len 32 in
  usb_cdcacm_tx buf len s
  = Some (n,
          set_hw
            (usb_set_ep_tx_stat VCOM_TX_ENDP USB_EP_STAT_TX_VALID
               (usb_set_ep_tx_count VCOM_TX_ENDP n
                  (with_pma (pma_pack (take (Z.to_nat n) buf)
                               (usb_pma_ptr VCOM_TX_ADDR) (pma (hw s)))
                            (hw s))))
            (set_countTx n s)).
Proof.
  intros Hc Hlen Hbuf n. unfold usb_cdcacm_tx.
  rewrite decide_False by (intros Hne; by apply Hne).
  change (VCOM_TX_EPSIZE `quot` 2) with 32.
  assert ((if decide (len > 32) then 32 else len) = n) as ->.
  { subst n. case_decide; lia. }
  assert (0 < n <= 32) as Hn by (subst n; lia).
  rewrite decide_True by lia.
  rewrite u16_small by lia.
  unfold usb_copy_to_pma. rewrite decide_True by done. simpl.
  rewrite Hc, u32_small by lia. done.
Qed.

Section TxClaims.
Context `{UsbLib}.

Lemma run_countTx (os : list op) :
  forall s s' : vcom,
    countTx s <> 0 ->
    Forall (fun o => o <> OpTxCb /\ o <> OpReset) os ->
    run os s = Some s' ->
    countTx s' = countTx s.
Proof.
  induction os as [|o os IH]; intros s s' Hc Hos Hrun; simpl in Hrun.
  - by injection Hrun as <-.
  - apply Forall_cons_1 in Hos as [[Ho1 Ho2] Hos].
    destruct (step o s) as [s1|] eqn:Hstep; [|done]. simpl in Hrun.
    pose proof (step_countTx o s s1 Hc Hstep) as Hs1.
    assert (countTx s1 = countTx s) as Heq.
    { destruct o; try done. by subst s1. }
    rewrite <- Heq. apply IH; [by rewrite Heq|done|done].
Qed.

(** C2 (amended).  While [countTx] is nonzero a call of [usb_cdcacm_tx]
    returns 0 and leaves the whole state as it is; a call that accepts
    [n > 0] bytes leaves [countTx] at [n]; from then on [countTx] keeps
    its nonzero value through every operation except the TX-complete
    callback [vcomDataTxCb] and the bus-reset handler [usbReset], which
    both set it to 0 and are the only operations that do. *)
Theorem tx_single_in_flight (buf : list Z) (len : Z) (o : op)
    (os : list op) (s s' : vcom) :
  (countTx s <> 0 -> usb_cdcacm_tx buf len s = Some (0, s)) /\
  (countTx s = 0 -> 0 < len < 2 ^ 32 ->
   Z.min len 32 <= Z.of_nat (length buf) ->
   exists s1, usb_cdcacm_tx buf len s = Some (Z.min len 32, s1) /\
              countTx s1 = Z.min len 32 /\ countTx s1 <> 0) /\
  (countTx s <> 0 -> step o s = Some s' ->
   countTx s' = countTx s \/
   (countTx s' = 0 /\ (o = OpTxCb \/ o = OpReset))) /\
  (countTx s <> 0 ->
   Forall (fun o => o <> OpTxCb /\ o <> OpReset) os ->
   run os s = Some s' -> countTx s' = countTx s) /\
  countTx (vcomDataTxCb s) = 0 /\
  countTx (usbReset s) = 0.
Proof.
  split_and!.
  - apply usb_cdcacm_tx_busy.
  - intros Hc Hlen Hbuf. eexists. split.
    + by apply usb_cdcacm_tx_idle.
    + simpl. lia.
  - intros Hc Hstep. pose proof (step_countTx o s s' Hc Hstep) as Hs.
    destruct o; auto. left. by subst s'.
  - apply run_countTx.
  - done.
  - done.
Qed.
End TxClaims.

Lemma tx_single_in_flight_witness :
  let s0 := vcom_init periph0 0 0 USB_UNCONNECTED in
  let s := set_countTx 3 s0 in
  usb_cdcacm_tx [72; 105] 2 s = Some (0, s) /\
  (exists s1, usb_cdcacm_tx [72; 105] 2 s0 = Some (Z.min 2 32, s1) /\
              countTx s1 = Z.min 2 32 /\ countTx s1 <> 0) /\
  (countTx (vcomDataTxCb s) = countTx s \/
   (countTx (vcomDataTxCb s) = 0 /\
    (@OpTxCb = OpTxCb \/ @OpTxCb = OpReset))) /\
  countTx (set_line_dtr_rts 0 (set_reset_state DTR_LOW s)) = countTx s.
Proof.
  intros s0 s.
  pose proof (tx_single_in_flight (H := usblib_eval) [72; 105] 2 OpTxCb
                [OpNoDataSetup 0x21 SET_CONTROL_LINE_STATE 0] s
                (vcomDataTxCb s)) as (Hbusy & _ & Hstep & Hrun & _).
  pose proof (tx_single_in_flight (H := usblib_eval) [72; 105] 2 OpTxCb
                [OpNoDataSetup 0x21 SET_CONTROL_LINE_STATE 0] s
                (set_line_dtr_rts 0 (set_reset_state DTR_LOW s)))
    as (_ & _ & _ & Hrun' & _).
  pose proof (tx_single_in_flight (H := usblib_eval) [72; 105] 2 OpTxCb
                [] s0 s0) as (_ & Hidle & _).
  split_and!.
  - apply Hbusy. simpl. lia.
  - apply Hidle; [reflexivity | lia | simpl; lia].
  - apply Hstep; [simpl; lia | reflexivity].
  - apply Hrun'; [simpl; lia | | reflexivity].
    apply Forall_cons_2; [split; discriminate | apply Forall_nil_2].
Defined.

(** C2, as stated, fails: [vcomDataTxCb] is not the only operation that
    sets [countTx] to 0.  After a one-byte transmission is accepted, a bus
    reset clears the counter as well. *)
Lemma tx_cleared_only_by_callback_counterexample :
  let s0 := vcom_init periph0 0 0 USB_UNCONNECTED in
  exists s s' : vcom,
    run (H := usblib_eval) [OpTx [65] 1] s0 = Some s /\
    countTx s = 1 /\
    step (H := usblib_eval) OpReset s = Some s' /\
    countTx s' = 0 /\
    @OpReset <> OpTxCb.
Proof.
  intros s0. eexists _, _. split_and!.
  - reflexivity.
  - reflexivity.
  - reflexivity.
  - reflexivity.
  - discriminate.
Qed.

Lemma tx_count_ptr_reset_layout (p : usb_periph) :
  BTABLE p = BTABLE_ADDRESS ->
  usb_ep_tx_count_ptr p VCOM_TX_ENDP = USB_PMA_BASE + 20 /\
  usb_ep_rx_count_ptr p VCOM_RX_ENDP = USB_PMA_BASE + 60 /\
  usb_pma_ptr VCOM_TX_ADDR = USB_PMA_BASE + 384 /\
  usb_pma_ptr VCOM_RX_ADDR = USB_PMA_BASE + 544.
Proof.
  intros Hb.
  unfold usb_ep_tx_count_ptr, usb_ep_rx_count_ptr, usb_btable_ptr.
  rewrite Hb. done.
Qed.

(** C4 (amended).  With no transmission in flight, [usb_cdcacm_tx] accepts
    and returns [min len (VCOM_TX_EPSIZE / 2)] bytes, which is at most 32
    and never the requested length when that exceeds the cap.  When that
    count is positive, exactly that many bytes of [buf] are in the TX
    buffer of the packet memory, the count is in the slot's TX count and
    in [countTx], and the TX status is VALID.  When [len] is 0 the call
    returns 0 and changes nothing: the slot's TX count keeps its former
    value. *)
Theorem usb_cdcacm_tx_accepts (buf : list Z) (len : Z) (s : vcom) :
  countTx s = 0 ->
  0 <= len < 2 ^ 32 ->
  Z.min len (VCOM_TX_EPSIZE `quot` 2) <= Z.of_nat (length buf) ->
  BTABLE (hw s) = BTABLE_ADDRESS ->
  let n := Z.min len (VCOM_TX_EPSIZE `quot` 2) in
  exists s' : vcom,
    usb_cdcacm_tx buf len s = Some (n, s') /\
    0 <= n <= 32 /\
    (len = 0 -> s' = s) /\
    (0 < len ->
     countTx s' = n /\
     usb_get_ep_tx_count (hw s') VCOM_TX_ENDP = n /\
     pma_unpack (Z.to_nat n) (usb_pma_ptr VCOM_TX_ADDR) (pma (hw s'))
       = u8 <$> take (Z.to_nat n) buf /\
     (forall a : Z,
        a <> usb_ep_tx_count_ptr (hw s) VCOM_TX_ENDP ->
        a < usb_pma_ptr VCOM_TX_ADDR \/
          usb_pma_ptr VCOM_TX_ADDR + 2 * n <= a ->
        pma (hw s') a = pma (hw s) a) /\
     ep_stat_tx (hw s') VCOM_TX_ENDP = USB_EP_STAT_TX_VALID).
Proof.
  change (VCOM_TX_EPSIZE `quot` 2) with 32.
  intros Hc Hlen Hbuf Hbt n.
  destruct (decide (len = 0)) as [-> | Hne].
  { exists s. rewrite usb_cdcacm_tx_zero. subst n. by split_and!. }
  rewrite usb_cdcacm_tx_idle by (done || lia). fold n.
  assert (0 < n <= 32) as Hn by (subst n; lia).
  eexists. split; [reflexivity|]. split; [lia|]. split; [done|].
  intros _.
  destruct (tx_count_ptr_reset_layout (hw s) Hbt) as (Hcp & _ & Htx & _).
  assert (length (take (Z.to_nat n) buf) = Z.to_nat n) as Htake.
  { rewrite length_take. lia. }
  split_and!.
  - done.
  - unfold usb_get_ep_tx_count, usb_set_ep_tx_stat, usb_set_ep_tx_count,
      usb_ep_tx_count_ptr, usb_btable_ptr, pma_store. simpl.
    rewrite fn_lookup_insert, u32_small, u16_small by lia. done.
  - simpl. unfold usb_set_ep_tx_count, pma_store, with_pma. simpl.
    change (usb_ep_tx_count_ptr _ VCOM_TX_ENDP)
      with (usb_ep_tx_count_ptr (hw s) VCOM_TX_ENDP).
    rewrite Hcp, Htx.
    rewrite (pma_unpack_ext _ _ _
               (pma_pack (take (Z.to_nat n) buf) (USB_PMA_BASE + 384)
                  (pma (hw s)))).
    + rewrite <- Htake at 1. apply pma_unpack_pack.
    + intros a Ha. rewrite fn_lookup_insert_ne by lia. done.
  - intros a Hne' Ha. simpl.
    unfold usb_set_ep_tx_count, pma_store, with_pma. simpl.
    change (usb_ep_tx_count_ptr _ VCOM_TX_ENDP)
      with (usb_ep_tx_count_ptr (hw s) VCOM_TX_ENDP).
    rewrite fn_lookup_insert_ne by done.
    apply pma_pack_outside. rewrite Htake. lia.
  - simpl.
    apply (usb_set_ep_tx_stat_reg _ VCOM_TX_ENDP 3). lia.
Qed.

Lemma usb_cdcacm_tx_accepts_witness :
  let s := vcom_init periph0 0 0 USB_UNCONNECTED in
  let buf := replicate 40 65 in
  exists s' : vcom,
    usb_cdcacm_tx buf 40 s = Some (32, s') /\
    0 <= 32 <= 32 /\
    (40 = 0 -> s' = s) /\
    (0 < 40 ->
     countTx s' = 32 /\
     usb_get_ep_tx_count (hw s') VCOM_TX_ENDP = 32 /\
     pma_unpack (Z.to_nat 32) (usb_pma_ptr VCOM_TX_ADDR) (pma (hw s'))
       = u8 <$> take (Z.to_nat 32) buf /\
     (forall a : Z,
        a <> usb_ep_tx_count_ptr (hw s) VCOM_TX_ENDP ->
        a < usb_pma_ptr VCOM_TX_ADDR \/
          usb_pma_ptr VCOM_TX_ADDR + 2 * 32 <= a ->
        pma (hw s') a = pma (hw s) a) /\
     ep_stat_tx (hw s') VCOM_TX_ENDP = USB_EP_STAT_TX_VALID).
Proof.
  intros s buf.
  apply (usb_cdcacm_tx_accepts buf 40 s);
    [reflexivity | lia | vm_compute; discriminate | reflexivity].
Defined.

(** C4, as stated, fails for a request of length 0: the call returns 0 but
    records nothing, so the slot's TX count still holds the 5 of the
    transmission before. *)
Lemma usb_cdcacm_tx_records_count_counterexample :
  let s0 := vcom_init periph0 0 0 USB_UNCONNECTED in
  exists s s' : vcom,
    run (H := usblib_eval) [OpTx [1; 2; 3; 4; 5] 5; OpTxCb] s0 = Some s /\
    countTx s = 0 /\
    usb_cdcacm_tx [] 0 s = Some (0, s') /\
    usb_get_ep_tx_count (hw s') VCOM_TX_ENDP = 5 /\
    Z.min 0 (VCOM_TX_EPSIZE `quot` 2) = 0.
Proof.
  intros s0. eexists _, _. split_and!; reflexivity.
Qed.

(** ** Receive path *)

Lemma usb_get_ep_rx_count_range (p : usb_periph) (ep : Z) :
  0 <= usb_get_ep_rx_count p ep <= 1023.
Proof.
  unfold usb_get_ep_rx_count.
  pose proof (Z.land_ones (u16 (pma p (usb_ep_rx_count_ptr p ep))) 10) as Hm.
  change (Z.ones 10) with 0x3FF in Hm. rewrite Hm by lia.
  pose proof (Z.mod_pos_bound (u16 (pma p (usb_ep_rx_count_ptr p ep)))
                (2 ^ 10)). lia.
Qed.

Lemma rx_copy_in_bounds (n : nat) :
  forall (i off : Z) (src : list Z),
    0 <= i -> 0 <= off ->
    i + off + Z.of_nat n <= Z.of_nat (length src) ->
    Z.of_nat (length src) < 2 ^ 32 ->
    rx_copy n i off src = Some (take n (drop (Z.to_nat (i + off)) src)).
Proof.
  induction n as [|n IH]; intros i off src Hi Hoff Hlen Hsz; simpl.
  - by rewrite take_0.
  - rewrite u32_small by lia.
    destruct (lookup_lt_is_Some_2 src (Z.to_nat (i + off))) as [b Hb];
      [lia|].
    rewrite Hb. simpl. rewrite IH by lia. simpl.
    rewrite (drop_S _ _ _ Hb). simpl.
    replace (Z.to_nat (i + 1 + off)) with (S (Z.to_nat (i + off))) by lia.
    done.
Qed.

Lemma rx_copy_length (n : nat) :
  forall (i off : Z) (src out : list Z),
    rx_copy n i off src = Some out -> length out = n.
Proof.
  induction n as [|n IH]; intros i off src out Hc; simpl in Hc.
  - by injection Hc as <-.
  - destruct (src !! _) as [b|]; [|done]. simpl in Hc.
    destruct (rx_copy n (i + 1) off src) as [rest|] eqn:Hr; [|done].
    simpl in Hc. injection Hc as <-. simpl. f_equal. by eapply IH.
Qed.

(** What a call of [usb_cdcacm_rx] that returns does to the state. *)
Lemma usb_cdcacm_rx_inv (len : Z) (s : vcom) (out : list Z) (n : Z)
    (s' : vcom) :
  usb_cdcacm_rx len s = Some (out, n, s') ->
  n = (if decide (len > newBytes s) then newBytes s else len) /\
  length out = Z.to_nat n /\
  newBytes s' = u32 (newBytes s - n) /\
  vcomBufferRx s' = vcomBufferRx s /\
  (newBytes s' = 0 ->
   hw s' = usb_set_ep_rx_stat VCOM_RX_ENDP USB_EP_STAT_RX_VALID
             (usb_set_ep_rx_count VCOM_RX_ENDP VCOM_RX_EPSIZE (hw s)) /\
   rx_offset s' = 0) /\
  (newBytes s' <> 0 ->
   hw s' = hw s /\ rx_offset s' = u32 (rx_offset s + n)).
Proof.
  unfold usb_cdcacm_rx.
  generalize (if decide (len > newBytes s) then newBytes s else len).
  intros m Hrx.
  destruct (rx_copy _ _ _ _) as [o|] eqn:Hcopy; [|done]. simpl in Hrx.
  injection Hrx as <- <- <-.
  apply rx_copy_length in Hcopy.
  destruct (decide (u32 (newBytes s - m) = 0)) as [Hz | Hnz]; simpl;
    split_and!; try done.
Qed.

(** A call of [usb_cdcacm_rx] returns whenever the region still to be read
    lies inside the receive buffer. *)
Lemma usb_cdcacm_rx_returns (len : Z) (s : vcom) :
  0 <= len -> 0 <= newBytes s -> 0 <= rx_offset s ->
  (newBytes s <> 0 ->
   rx_offset s + newBytes s <= Z.of_nat (length (vcomBufferRx s))) ->
  Z.of_nat (length (vcomBufferRx s)) < 2 ^ 32 ->
  exists s' : vcom,
    usb_cdcacm_rx len s
    = Some (take (Z.to_nat (Z.min len (newBytes s)))
              (drop (Z.to_nat (rx_offset s)) (vcomBufferRx s)),
            Z.min len (newBytes s), s').
Proof.
  intros Hlen Hnb Hoff Hfit Hsz. unfold usb_cdcacm_rx.
  assert ((if decide (len > newBytes s) then newBytes s else len)
          = Z.min len (newBytes s)) as -> by (case_decide; lia).
  destruct (decide (Z.min len (newBytes s) = 0)) as [Hz | Hnz].
  - rewrite Hz. simpl. rewrite take_0. eexists. reflexivity.
  - rewrite rx_copy_in_bounds by lia. simpl. eexists. reflexivity.
Qed.

Lemma vcomDataRxCb_returns (s : vcom) :
  usb_get_ep_rx_count (hw s) VCOM_RX_ENDP
    <= Z.of_nat (length (vcomBufferRx s)) ->
  exists s' : vcom,
    vcomDataRxCb s = Some s' /\
    vcomBufferRx s'
    = pma_unpack (Z.to_nat (usb_get_ep_rx_count (hw s) VCOM_RX_ENDP))
        (usb_pma_ptr VCOM_RX_ADDR) (pma (hw s))
      ++ drop (Z.to_nat (usb_get_ep_rx_count (hw s) VCOM_RX_ENDP))
           (vcomBufferRx s) /\
    length (vcomBufferRx s') = length (vcomBufferRx s).
Proof.
  intros Hk. pose proof (usb_get_ep_rx_count_range (hw s) VCOM_RX_ENDP) as Hr.
  unfold vcomDataRxCb, usb_copy_from_pma. simpl.
  rewrite u16_small by lia. rewrite decide_True by done. simpl.
  eexists. split_and!; [reflexivity | reflexivity |].
  simpl. rewrite length_app, pma_unpack_length, length_drop. lia.
Qed.

Lemma vcomDataRxCb_overrun (s : vcom) :
  Z.of_nat (length (vcomBufferRx s))
    < usb_get_ep_rx_count (hw s) VCOM_RX_ENDP ->
  vcomDataRxCb s = None.
Proof.
  intros Hk. pose proof (usb_get_ep_rx_count_range (hw s) VCOM_RX_ENDP) as Hr.
  unfold vcomDataRxCb, usb_copy_from_pma. simpl.
  rewrite u16_small by lia. rewrite decide_False by lia. done.
Qed.

(** C9.  When the byte count that the peripheral reports is at most
    [VCOM_RX_EPSIZE], the callback's copy stays inside the 192-byte
    [vcomBufferRx]: the callback returns, the array keeps its length, and
    nothing beyond the first [count] bytes changes.  The 10-bit mask of
    [usb_get_ep_rx_count] only bounds the count by 1023, which is more than
    the array holds: with a reported count above 192 the copy leaves the
    array, and a count field of all ones gives such a state. *)
Theorem vcomDataRxCb_memory_safety (s : vcom) :
  length (vcomBufferRx s) = Z.to_nat VCOM_RX_BUFLEN ->
  let k := usb_get_ep_rx_count (hw s) VCOM_RX_ENDP in
  (k <= VCOM_RX_EPSIZE ->
   exists s' : vcom,
     vcomDataRxCb s = Some s' /\
     length (vcomBufferRx s') = Z.to_nat VCOM_RX_BUFLEN /\
     drop (Z.to_nat k) (vcomBufferRx s') = drop (Z.to_nat k) (vcomBufferRx s))
  /\
  (0 <= k <= 1023 /\ VCOM_RX_BUFLEN < 1023) /\
  (VCOM_RX_BUFLEN < k -> vcomDataRxCb s = None) /\
  (let p := pma_store (usb_ep_rx_count_ptr (hw s) VCOM_RX_ENDP) 0xFFFF
              (hw s) in
   usb_get_ep_rx_count p VCOM_RX_ENDP = 1023 /\
   vcomDataRxCb (set_hw p s) = None).
Proof.
  intros Hlen k.
  pose proof (usb_get_ep_rx_count_range (hw s) VCOM_RX_ENDP) as Hr.
  change VCOM_RX_BUFLEN with 192 in *. change VCOM_RX_EPSIZE with 64.
  refine (conj _ (conj _ (conj _ (conj _ _)))).
  - intros Hk. destruct (vcomDataRxCb_returns s) as (s' & Hcb & Hbuf & Hl).
    { fold k. lia. }
    exists s'. split_and!; [done | congruence |].
    rewrite Hbuf. fold k. rewrite drop_app_length'; [done|].
    symmetry. apply pma_unpack_length.
  - subst k. lia.
  - intros Hk. apply vcomDataRxCb_overrun. fold k. lia.
  - unfold usb_get_ep_rx_count, pma_store, usb_ep_rx_count_ptr,
      usb_btable_ptr. simpl. by rewrite fn_lookup_insert.
  - apply vcomDataRxCb_overrun. simpl.
    unfold usb_get_ep_rx_count, pma_store, usb_ep_rx_count_ptr,
      usb_btable_ptr. simpl. rewrite fn_lookup_insert. rewrite Hlen.
    by vm_compute.
Qed.

Lemma vcomDataRxCb_memory_safety_witness :
  let s := set_hw (hw_rx_packet [104; 105; 33] periph0)
             (vcom_init periph0 0 0 USB_UNCONNECTED) in
  let k := usb_get_ep_rx_count (hw s) VCOM_RX_ENDP in
  k = 3 /\
  (exists s' : vcom,
     vcomDataRxCb s = Some s' /\
     length (vcomBufferRx s') = Z.to_nat VCOM_RX_BUFLEN /\
     drop (Z.to_nat k) (vcomBufferRx s') = drop (Z.to_nat k) (vcomBufferRx s))
  /\
  (let p := pma_store (usb_ep_rx_count_ptr (hw s) VCOM_RX_ENDP) 0xFFFF
              (hw s) in
   usb_get_ep_rx_count p VCOM_RX_ENDP = 1023 /\
   vcomDataRxCb (set_hw p s) = None).
Proof.
  intros s k.
  destruct (vcomDataRxCb_memory_safety s) as (Hsafe & _ & _ & Hmask).
  { reflexivity. }
  split_and!.
  - reflexivity.
  - apply Hsafe. by vm_compute.
  - apply Hmask.
Defined.

(** *** Backpressure *)

Lemma rx_stat_after_set (p : usb_periph) (s : Z) :
  0 <= s < 4 ->
  ep_stat_rx (usb_set_ep_rx_stat VCOM_RX_ENDP (Z.shiftl s 12) p) VCOM_RX_ENDP
  = Z.shiftl s 12.
Proof. intros Hs. by apply (usb_set_ep_rx_stat_reg p VCOM_RX_ENDP s). Qed.

Lemma bdt_rx_count_rearmed (p : usb_periph) :
  bdt_rx_count
    (usb_set_ep_rx_stat VCOM_RX_ENDP USB_EP_STAT_RX_VALID
       (usb_set_ep_rx_count VCOM_RX_ENDP VCOM_RX_EPSIZE p)) VCOM_RX_ENDP
  = VCOM_RX_EPSIZE.
Proof.
  unfold bdt_rx_count, usb_set_ep_rx_stat, usb_set_ep_rx_count, pma_store,
    usb_ep_rx_count_ptr, usb_btable_ptr. simpl.
  by rewrite fn_lookup_insert.
Qed.







(** *** The read window *)

Lemma rx_window_inv_rx (len : Z) (s : vcom) (out : list Z) (n : Z)
    (s' : vcom) :
  rx_window_inv s -> 0 <= len ->
  usb_cdcacm_rx len s = Some (out, n, s') ->
  rx_window_inv s'.
Proof.
  intros (Hnb & Hoff & Hsum & Hzero & Hlen) Hl Hrx.
  change VCOM_RX_EPSIZE with 64 in *.
  apply usb_cdcacm_rx_inv in Hrx as (Hn & _ & Hnb' & Hbuf & Hz & Hnz).
  assert (n = Z.min len (newBytes s)) as Hmin by (case_decide; lia).
  rewrite u32_small in Hnb' by lia.
  unfold rx_window_inv. rewrite Hbuf. change VCOM_RX_EPSIZE with 64.
  destruct (decide (newBytes s' = 0)) as [Hd | Hd].
  - destruct (Hz Hd) as [_ Ho]. split_and!; try done; lia.
  - destruct (Hnz Hd) as [_ Ho]. rewrite u32_small in Ho by lia.
    split_and!; try done; lia.
Qed.

Lemma rx_window_inv_cb (p : usb_periph) (s s' : vcom) :
  rx_window_inv s -> newBytes s = 0 ->
  usb_get_ep_rx_count p VCOM_RX_ENDP <= VCOM_RX_EPSIZE ->
  vcomDataRxCb (set_hw p s) = Some s' ->
  rx_window_inv s'.
Proof.
  intros (Hnb & Hoff & Hsum & Hzero & Hlen) Hz Hk Hcb.
  change VCOM_RX_EPSIZE with 64 in *.
  pose proof (usb_get_ep_rx_count_range p VCOM_RX_ENDP) as Hr.
  destruct (vcomDataRxCb_returns (set_hw p s)) as (s1 & Hcb1 & _ & Hl).
  { simpl. rewrite Hlen. change VCOM_RX_BUFLEN with 192. lia. }
  rewrite Hcb in Hcb1. injection Hcb1 as <-.
  apply vcomDataRxCb_frame in Hcb as (_ & Ho & _ & _ & Hn & _).
  simpl in *. unfold rx_window_inv.
  rewrite Hn, Ho, Hl, (Hzero Hz). change VCOM_RX_EPSIZE with 64.
  split_and!; try done; lia.
Qed.

Section ReadWindow.
Context `{UsbLib}.

Lemma rx_disc_reach_inv (s : vcom) : rx_disc_reach s -> rx_window_inv s.
Proof.
  induction 1 as [hw0 cfg feat st | s p s' _ IH Hz Hk Hcb
                 | s len out n s' _ IH Hlen Hrx | s _ IH].
  - unfold rx_window_inv, vcom_init.
    cbn [newBytes rx_offset vcomBufferRx]. rewrite length_replicate.
    change VCOM_RX_EPSIZE with 64. split_and!; try done; lia.
  - by eapply rx_window_inv_cb.
  - eapply rx_window_inv_rx; [done | | done]. lia.
  - done.
Qed.

(** C10.  In every state reached from device initialisation by RX
    completions, each reporting at most [VCOM_RX_EPSIZE] bytes and firing
    only while [newBytes] is 0, by calls of [usb_cdcacm_rx] and by bus
    resets, [rx_offset + newBytes <= VCOM_RX_EPSIZE] holds.  Hence a call
    of [usb_cdcacm_rx] returns, and every index [i + rx_offset] it reads
    lies inside [vcomBufferRx] and before the end of the data still to
    be read. *)
Theorem rx_read_window (s : vcom) :
  rx_disc_reach s ->
  (0 <= newBytes s /\ 0 <= rx_offset s /\
   rx_offset s + newBytes s <= VCOM_RX_EPSIZE) /\
  (forall len : Z,
     0 <= len < 2 ^ 32 ->
     exists (out : list Z) (s' : vcom),
       usb_cdcacm_rx len s = Some (out, Z.min len (newBytes s), s') /\
       forall i : Z,
         0 <= i < Z.min len (newBytes s) ->
         i + rx_offset s < rx_offset s + newBytes s /\
         i + rx_offset s < VCOM_RX_BUFLEN /\
         is_Some (vcomBufferRx s !! Z.to_nat (i + rx_offset s)) /\
         out !! Z.to_nat i = vcomBufferRx s !! Z.to_nat (i + rx_offset s)).
Proof.
  intros Hreach.
  destruct (rx_disc_reach_inv s Hreach) as (Hnb & Hoff & Hsum & Hzero & Hl).
  change VCOM_RX_EPSIZE with 64 in *. change VCOM_RX_BUFLEN with 192 in *.
  split; [done|]. intros len Hlen.
  destruct (usb_cdcacm_rx_returns len s) as (s' & Hrx); try lia.
  eexists _, s'. split; [exact Hrx|].
  intros i Hi.
  assert (Z.to_nat (i + rx_offset s) < length (vcomBufferRx s))%nat
    as Hin by lia.
  split_and!; try lia.
  - by apply lookup_lt_is_Some_2.
  - rewrite lookup_take_lt by lia. rewrite lookup_drop. f_equal. lia.
Qed.
End ReadWindow.

Lemma rx_read_window_witness :
  let s := after_rx_packet [104; 105; 33]
             (vcom_init periph0 0 0 USB_UNCONNECTED) in
  (0 <= newBytes s /\ 0 <= rx_offset s /\
   rx_offset s + newBytes s <= VCOM_RX_EPSIZE) /\
  exists (out : list Z) (s' : vcom),
    usb_cdcacm_rx 2 s = Some (out, Z.min 2 (newBytes s), s') /\
    forall i : Z,
      0 <= i < Z.min 2 (newBytes s) ->
      i + rx_offset s < rx_offset s + newBytes s /\
      i + rx_offset s < VCOM_RX_BUFLEN /\
      is_Some (vcomBufferRx s !! Z.to_nat (i + rx_offset s)) /\
      out !! Z.to_nat i = vcomBufferRx s !! Z.to_nat (i + rx_offset s).
Proof.
  intros s.
  assert (rx_disc_reach (H := usblib_eval) s) as Hreach.
  { apply (rx_disc_cb (vcom_init periph0 0 0 USB_UNCONNECTED)
             (hw_rx_packet [104; 105; 33] periph0)).
    - apply rx_disc_init.
    - reflexivity.
    - by vm_compute.
    - reflexivity. }
  destruct (rx_read_window (H := usblib_eval) s Hreach) as [Hinv Hrx].
  split; [exact Hinv|]. apply Hrx. lia.
Defined.

(** *** Round trip through the receive buffer *)

Lemma u8_id_in_range (data : list Z) :
  Forall (fun b => 0 <= b < 256) data -> u8 <$> data = data.
Proof.
  induction 1 as [|b data Hb _ IH]; [done|]. rewrite fmap_cons, IH. f_equal.
  unfold u8. apply Z.mod_small. lia.
Qed.

Lemma low10_of_store (x : Z) :
  Z.land (u16 (u32 x)) 0x3FF = Z.land x 0x3FF.
Proof.
  unfold u16, u32. rewrite <- !Z.land_ones by lia.
  by rewrite <- !Z.land_assoc.
Qed.

Lemma count_field_update (old k : Z) :
  0 <= k <= 1023 ->
  Z.land (Z.lor (Z.land old (Z.lnot 0x3FF)) k) 0x3FF = k.
Proof.
  intros Hk. rewrite Z.land_lor_distr_l, <- Z.land_assoc.
  rewrite (Z.land_comm (Z.lnot _)), Z.land_lnot_diag, Z.land_0_r, Z.lor_0_l.
  change 0x3FF with (Z.ones 10). rewrite Z.land_ones by lia.
  apply Z.mod_small. lia.
Qed.

(** What the callback finds after the peripheral has received [data]. *)
Lemma hw_rx_packet_seen (data : list Z) (p : usb_periph) :
  BTABLE p = BTABLE_ADDRESS ->
  Z.of_nat (length data) <= 1023 ->
  usb_get_ep_rx_count (hw_rx_packet data p) VCOM_RX_ENDP
    = Z.of_nat (length data) /\
  pma_unpack (length data) (usb_pma_ptr VCOM_RX_ADDR)
    (pma (hw_rx_packet data p)) = u8 <$> data.
Proof.
  intros Hb Hk.
  destruct (tx_count_ptr_reset_layout p Hb) as (_ & Hcp & _ & Hrx).
  unfold hw_rx_packet. cbv zeta.
  change (usb_ep_rx_count_ptr (with_pma _ p) VCOM_RX_ENDP)
    with (usb_ep_rx_count_ptr p VCOM_RX_ENDP).
  split.
  - unfold usb_get_ep_rx_count, pma_store. simpl.
    change (usb_ep_rx_count_ptr _ VCOM_RX_ENDP)
      with (usb_ep_rx_count_ptr p VCOM_RX_ENDP).
    rewrite fn_lookup_insert, low10_of_store.
    apply count_field_update. lia.
  - unfold pma_store. simpl. rewrite Hcp, Hrx.
    rewrite (pma_unpack_ext _ _ _
               (pma_pack data (USB_PMA_BASE + 544) (pma p))).
    + apply pma_unpack_pack.
    + intros a Ha. rewrite fn_lookup_insert_ne by lia. done.
Qed.

Lemma rx_expected_counts_sum (lens : list Z) :
  forall avail : Z,
    0 <= avail -> Forall (fun l => 0 <= l < 2 ^ 32) lens ->
    Zsum (rx_expected_counts lens avail) = Z.min (Zsum lens) avail.
Proof.
  induction lens as [|len lens IH]; intros avail Ha Hl; simpl.
  - lia.
  - apply Forall_cons_1 in Hl as [Hlen Hl].
    rewrite IH by (done || lia).
    assert (0 <= Zsum lens) as Hs.
    { clear -Hl. induction Hl as [|x l Hx _ IHl]; simpl; lia. }
    lia.
Qed.

(** The calls of [usb_cdcacm_rx] hand out the part of [data] that has not
    been read yet, in order; [c] bytes have been read so far. *)
Lemma rx_calls_prefix (data : list Z) (lens : list Z) :
  forall (s : vcom) (c : Z),
    Forall (fun l => 0 <= l < 2 ^ 32) lens ->
    0 <= c <= Z.of_nat (length data) ->
    newBytes s = Z.of_nat (length data) - c ->
    (newBytes s <> 0 -> rx_offset s = c) ->
    0 <= rx_offset s ->
    take (length data) (vcomBufferRx s) = data ->
    Z.of_nat (length (vcomBufferRx s)) < 2 ^ 32 ->
    let ns := rx_expected_counts lens (Z.of_nat (length data) - c) in
    exists s2 : vcom,
      rx_calls lens s
      = Some (ns, take (Z.to_nat (Zsum ns)) (drop (Z.to_nat c) data), s2) /\
      newBytes s2 = Z.of_nat (length data) - c - Zsum ns.
Proof.
  induction lens as [|len lens IH];
    intros s c Hl Hc Hnb Hoff Hoff0 Hbuf Hsz; simpl.
  - exists s. split; [done | lia].
  - apply Forall_cons_1 in Hl as [Hlen Hl].
    set (k := Z.of_nat (length data)) in *.
    set (n := Z.min len (k - c)).
    assert (length data <= length (vcomBufferRx s))%nat as Hfit.
    { rewrite <- Hbuf at 1. rewrite length_take. lia. }
    destruct (usb_cdcacm_rx_returns len s) as (s' & Hrx); [lia..|].
    rewrite Hnb in Hrx. fold n in Hrx. rewrite Hrx. simpl.
    assert (take (Z.to_nat n) (drop (Z.to_nat (rx_offset s)) (vcomBufferRx s))
            = take (Z.to_nat n) (drop (Z.to_nat c) data)) as Hout.
    { destruct (decide (n = 0)) as [-> | Hn0]; [by rewrite !take_0|].
      rewrite Hoff by lia.
      rewrite <- (take_drop (length data) (vcomBufferRx s)), Hbuf.
      rewrite drop_app_le by lia.
      apply take_app_le. rewrite length_drop. lia. }
    apply usb_cdcacm_rx_inv in Hrx as (_ & _ & Hnb' & Hbuf' & Hz & Hnz).
    rewrite Hnb, u32_small in Hnb' by lia.
    destruct (IH s' (c + n)) as (s2 & Hcalls & Hnb2); try done; try lia.
    { intros Hne. destruct (Hnz Hne) as [_ ->].
      rewrite Hoff by lia. rewrite u32_small by lia. done. }
    { destruct (decide (newBytes s' = 0)) as [Hd | Hd].
      - destruct (Hz Hd) as [_ ->]. lia.
      - destruct (Hnz Hd) as [_ ->]. apply Z.mod_pos_bound. lia. }
    { by rewrite Hbuf'. }
    { by rewrite Hbuf'. }
    replace (k - (c + n)) with (k - c - n) in Hcalls, Hnb2 by lia.
    rewrite Hcalls. simpl. exists s2. split; [|lia].
    rewrite Hout. do 2 f_equal.
    assert (0 <= Zsum (rx_expected_counts lens (k - c - n))) as Hs.
    { rewrite rx_expected_counts_sum by (done || lia).
      assert (0 <= Zsum lens).
      { clear -Hl. induction Hl as [|x l Hx _ IHl]; simpl; lia. }
      lia. }
    replace (Z.to_nat (c + n)) with (Z.to_nat c + Z.to_nat n)%nat by lia.
    rewrite <- drop_drop, take_take_drop.
    rewrite (Z2Nat.inj_add n) by lia. done.
Qed.

(** X19.  After one RX completion has delivered [data] while the read
    cursor was at 0, successive calls of [usb_cdcacm_rx] with requested
    lengths [lens] all return; the counts
    they return are, call by call, the smaller of the requested length and
    what is still available; the bytes they hand out, in call order, are
    the bytes of [data] from the first on, in their order; [newBytes] goes
    down by each returned count and ends at 0 once the requests add up to
    the length of [data].  A request for more than is available returns
    what is available. *)
Theorem rx_round_trip (data lens : list Z) (s : vcom) :
  Forall (fun b => 0 <= b < 256) data ->
  Z.of_nat (length data) <= VCOM_RX_BUFLEN ->
  Forall (fun l => 0 <= l < 2 ^ 32) lens ->
  BTABLE (hw s) = BTABLE_ADDRESS ->
  rx_offset s = 0 ->
  length (vcomBufferRx s) = Z.to_nat VCOM_RX_BUFLEN ->
  let k := Z.of_nat (length data) in
  let ns := rx_expected_counts lens k in
  (exists s1 s2 : vcom,
     vcomDataRxCb (set_hw (hw_rx_packet data (hw s)) s) = Some s1 /\
     newBytes s1 = k /\
     rx_calls lens s1 = Some (ns, take (Z.to_nat (Zsum ns)) data, s2) /\
     Zsum ns = Z.min (Zsum lens) k /\
     newBytes s2 = k - Zsum ns /\
     (k <= Zsum lens ->
      take (Z.to_nat (Zsum ns)) data = data /\ newBytes s2 = 0)) /\
  (forall (len : Z) (t : vcom) (out : list Z) (n : Z) (t' : vcom),
     0 <= len -> 0 <= newBytes t < 2 ^ 32 ->
     usb_cdcacm_rx len t = Some (out, n, t') ->
     n = Z.min len (newBytes t) /\
     length out = Z.to_nat n /\
     newBytes t' = newBytes t - n /\
     0 <= newBytes t' <= newBytes t).
Proof.
  intros Hdata Hk Hlens Hbt Hoff Hlen k ns.
  change VCOM_RX_BUFLEN with 192 in *.
  split.
  - destruct (hw_rx_packet_seen data (hw s) Hbt) as [Hcount Hbytes]; [lia|].
    rewrite (u8_id_in_range data Hdata) in Hbytes.
    destruct (vcomDataRxCb_returns (set_hw (hw_rx_packet data (hw s)) s))
      as (s1 & Hcb & Hbuf & Hl1).
    { cbn [hw set_hw vcomBufferRx]. rewrite Hcount, Hlen. lia. }
    cbn [hw set_hw vcomBufferRx] in Hbuf, Hl1.
    rewrite Hcount, Nat2Z.id, Hbytes in Hbuf.
    pose proof Hcb as Hframe.
    apply vcomDataRxCb_frame in Hframe as (_ & Ho & _ & _ & Hnb & _).
    cbn [hw set_hw rx_offset] in Ho, Hnb. rewrite Hcount in Hnb.
    destruct (rx_calls_prefix data lens s1 0) as (s2 & Hcalls & Hnb2);
      try done; try lia.
    { rewrite Hbuf. by rewrite take_app_length. }
    rewrite Z.sub_0_r in Hcalls, Hnb2. fold k in Hcalls, Hnb2.
    change (Z.to_nat 0) with 0%nat in Hcalls. rewrite drop_0 in Hcalls.
    fold ns in Hcalls, Hnb2.
    assert (Zsum ns = Z.min (Zsum lens) k) as Hsum.
    { subst ns. apply rx_expected_counts_sum; [lia | done]. }
    exists s1, s2. split_and!; try done; try lia.
    intros Hall. split; [|lia].
    apply take_ge. lia.
  - intros len t out n t' Hl Hnb Hrx.
    apply usb_cdcacm_rx_inv in Hrx as (Hn & Hout & Hnb' & _).
    assert (n = Z.min len (newBytes t)) as Hmin by (case_decide; lia).
    rewrite u32_small in Hnb' by lia.
    split_and!; try done; lia.
Qed.

Lemma rx_round_trip_witness :
  let data := [104; 101; 108; 108; 111] in
  let s := vcom_init periph0 0 0 USB_UNCONNECTED in
  exists s1 s2 : vcom,
    vcomDataRxCb (set_hw (hw_rx_packet data (hw s)) s) = Some s1 /\
    newBytes s1 = 5 /\
    rx_calls [2; 0; 7; 1] s1 = Some ([2; 0; 3; 0], data, s2) /\
    newBytes s2 = 0.
Proof.
  intros data s.
  destruct (rx_round_trip data [2; 0; 7; 1] s) as [Hex _].
  - repeat (apply Forall_cons_2; [lia|]). apply Forall_nil_2.
  - by vm_compute.
  - repeat (apply Forall_cons_2; [lia|]). apply Forall_nil_2.
  - reflexivity.
  - reflexivity.
  - reflexivity.
  - destruct Hex as (s1 & s2 & Hcb & Hnb & Hcalls & _ & _ & Hall).
    exists s1, s2. split_and!; [exact Hcb | exact Hnb | exact Hcalls |].
    apply Hall. by vm_compute.
Defined.

(** C5.  The round trip does not survive a bus reset that comes between
    two reads.  After a reset, a packet of three bytes and a read of two,
    [newBytes] is 1 and the read cursor is 2.  A second reset sets the data
    OUT endpoint to VALID and leaves both as they are.  The packet
    [1; 2; 3; 4] that completes next is stored from the start of
    [vcomBufferRx] and sets [newBytes] to 4, but the read of four bytes
    that follows starts at the old cursor: it hands out [3; 4; 0; 0], not
    the bytes delivered. *)
Theorem rx_round_trip_broken_by_reset :
  let s0 := usbReset (H := usblib_eval)
              (vcom_init periph0 0 0 USB_UNCONNECTED) in
  exists s1 s2 s4 s5 : vcom,
    vcomDataRxCb (set_hw (hw_rx_packet [104; 105; 33] (hw s0)) s0) = Some s1 /\
    usb_cdcacm_rx 2 s1 = Some ([104; 105], 2, s2) /\
    newBytes s2 = 1 /\
    rx_offset s2 = 2 /\
    (let s3 := usbReset (H := usblib_eval) s2 in
     ep_stat_rx (hw s3) VCOM_RX_ENDP = USB_EP_STAT_RX_VALID /\
     newBytes s3 = 1 /\
     rx_offset s3 = 2 /\
     vcomDataRxCb (set_hw (hw_rx_packet [1; 2; 3; 4] (hw s3)) s3) = Some s4) /\
    newBytes s4 = 4 /\
    rx_offset s4 = 2 /\
    take 4 (vcomBufferRx s4) = [1; 2; 3; 4] /\
    usb_cdcacm_rx 4 s4 = Some ([3; 4; 0; 0], 4, s5).
Proof.
  intros s0.
  set (s1 := after_rx_packet [104; 105; 33] s0).
  set (s2 := default s1 (snd <$> usb_cdcacm_rx 2 s1)).
  set (s4 := after_rx_packet [1; 2; 3; 4] (usbReset (H := usblib_eval) s2)).
  set (s5 := default s4 (snd <$> usb_cdcacm_rx 4 s4)).
  exists s1, s2, s4, s5.
  split_and!; by vm_compute.
Qed.

(** * Further properties of the two files *)

(** ** Whole-register form of the endpoint register routines *)

(** A value that fits the sixteen bits of an endpoint register. *)
Lemma fits16_land (x m : Z) :
  0 <= m < 2 ^ 16 -> Z.land (Z.land x m) 0xFFFF = Z.land x m.
Proof.
  intros Hm. rewrite <- Z.land_assoc. f_equal.
  change 0xFFFF with (Z.ones 16). rewrite Z.land_ones by lia.
  by apply Z.mod_small.
Qed.

Lemma fits16_lor (x y : Z) :
  Z.land x 0xFFFF = x -> Z.land y 0xFFFF = y ->
  Z.land (Z.lor x y) 0xFFFF = Z.lor x y.
Proof. intros Hx Hy. by rewrite Z.land_lor_distr_l, Hx, Hy. Qed.

Lemma epr_hw_write_fits16 (old w : Z) :
  Z.land (epr_hw_write old w) 0xFFFF = epr_hw_write old w.
Proof.
  unfold epr_hw_write.
  repeat apply fits16_lor; apply fits16_land; by vm_compute.
Qed.

(** Two 16-bit values are equal when their sixteen low bits agree; the
    tactic reduces a register equation to that and decides it bit by bit. *)
Ltac epr_eq r :=
  match goal with
  | |- ?x = ?y =>
      let Hx := fresh in let Hy := fresh in
      assert (Z.land x 0xFFFF = x) as Hx
        by (first [ apply epr_hw_write_fits16
                  | repeat apply fits16_lor; first
                      [ apply fits16_land; by vm_compute | by vm_compute ] ]);
      assert (Z.land y 0xFFFF = y) as Hy
        by (first [ apply epr_hw_write_fits16
                  | apply fits16_land; by vm_compute
                  | repeat apply fits16_lor; first
                      [ apply fits16_land; by vm_compute | by vm_compute ] ]);
      rewrite <- Hx, <- Hy; clear Hx Hy; unfold epr_hw_write; epr_bits r
  end.

Lemma usb_set_ep_rx_stat_value (p : usb_periph) (ep s : Z) :
  0 <= s < 4 ->
  EP (usb_set_ep_rx_stat ep (Z.shiftl s 12) p) ep
  = Z.lor (Z.land (EP p ep) 0xCFFF) (Z.shiftl s 12).
Proof.
  intros Hs. unfold usb_set_ep_rx_stat. rewrite EP_write_EP_eq.
  generalize (EP p ep) as r. intros r.
  apply two_bit_cases in Hs as [-> | [-> | [-> | ->]]]; epr_eq r.
Qed.

Lemma usb_set_ep_tx_stat_value (p : usb_periph) (ep s : Z) :
  0 <= s < 4 ->
  EP (usb_set_ep_tx_stat ep (Z.shiftl s 4) p) ep
  = Z.lor (Z.land (EP p ep) 0xFFCF) (Z.shiftl s 4).
Proof.
  intros Hs. unfold usb_set_ep_tx_stat. rewrite EP_write_EP_eq.
  generalize (EP p ep) as r. intros r.
  apply two_bit_cases in Hs as [-> | [-> | [-> | ->]]]; epr_eq r.
Qed.

Lemma usb_set_ep_type_value (p : usb_periph) (ep t : Z) :
  0 <= t < 4 ->
  EP (usb_set_ep_type ep (Z.shiftl t 9) p) ep
  = Z.lor (Z.land (EP p ep) 0xF9FF) (Z.shiftl t 9).
Proof.
  intros Ht. unfold usb_set_ep_type. rewrite EP_write_EP_eq.
  generalize (EP p ep) as r. intros r.
  apply two_bit_cases in Ht as [-> | [-> | [-> | ->]]]; epr_eq r.
Qed.

Lemma usb_set_ep_kind_value (p : usb_periph) (ep k : Z) :
  0 <= k < 2 ->
  EP (usb_set_ep_kind ep (Z.shiftl k 8) p) ep
  = Z.lor (Z.land (EP p ep) 0xFEFF) (Z.shiftl k 8).
Proof.
  intros Hk. unfold usb_set_ep_kind. rewrite EP_write_EP_eq.
  generalize (EP p ep) as r. intros r.
  assert (k = 0 \/ k = 1) as [-> | ->] by lia; epr_eq r.
Qed.

Lemma usb_clear_ctr_value (p : usb_periph) (ep : Z) :
  EP (usb_clear_ctr_rx ep p) ep = Z.land (EP p ep) 0x7FFF /\
  EP (usb_clear_ctr_tx ep p) ep = Z.land (EP p ep) 0xFF7F.
Proof.
  unfold usb_clear_ctr_rx, usb_clear_ctr_tx. rewrite !EP_write_EP_eq.
  generalize (EP p ep) as r. intros r. split; epr_eq r.
Qed.

Ltac epr_field_is r :=
  match goal with
  | |- Z.land ?x ?m = ?c =>
      transitivity (Z.land c m); [epr_bits r | by vm_compute]
  end.

Ltac same_fields_bits r :=
  repeat (apply Forall_cons_2; [cbv beta; epr_bits r|]); apply Forall_nil_2.

(** X1.  Status writes to one register compose as plain assignments: the
    later of two writes to the same direction wins, writes to the two
    directions commute, and writing the status a 16-bit register already
    has leaves the register as it is.  No write touches another endpoint's
    register, the table base or the packet memory. *)
Theorem usb_set_ep_stat_compose (p : usb_periph) (ep a b : Z) :
  0 <= a < 4 -> 0 <= b < 4 ->
  let rx s q := usb_set_ep_rx_stat ep (Z.shiftl s 12) q in
  let tx s q := usb_set_ep_tx_stat ep (Z.shiftl s 4) q in
  EP (rx b (rx a p)) ep = EP (rx b p) ep /\
  EP (tx b (tx a p)) ep = EP (tx b p) ep /\
  EP (tx b (rx a p)) ep = EP (rx a (tx b p)) ep /\
  (Z.land (EP p ep) 0xFFFF = EP p ep ->
   (ep_stat_rx p ep = Z.shiftl a 12 -> EP (rx a p) ep = EP p ep) /\
   (ep_stat_tx p ep = Z.shiftl b 4 -> EP (tx b p) ep = EP p ep)) /\
  (forall ep' : Z, ep' <> ep ->
     EP (rx a p) ep' = EP p ep' /\ EP (tx b p) ep' = EP p ep') /\
  BTABLE (rx a p) = BTABLE p /\ pma (rx a p) = pma p /\
  BTABLE (tx b p) = BTABLE p /\ pma (tx b p) = pma p.
Proof.
  intros Ha Hb rx tx. subst rx tx. cbv beta.
  repeat (rewrite ?usb_set_ep_rx_stat_value, ?usb_set_ep_tx_stat_value
            by done).
  unfold ep_stat_rx, ep_stat_tx.
  generalize (EP p ep) as r. intros r.
  split_and!.
  - apply two_bit_cases in Ha as [-> | [-> | [-> | ->]]];
      apply two_bit_cases in Hb as [-> | [-> | [-> | ->]]]; epr_eq r.
  - apply two_bit_cases in Ha as [-> | [-> | [-> | ->]]];
      apply two_bit_cases in Hb as [-> | [-> | [-> | ->]]]; epr_eq r.
  - apply two_bit_cases in Ha as [-> | [-> | [-> | ->]]];
      apply two_bit_cases in Hb as [-> | [-> | [-> | ->]]]; epr_eq r.
  - intros Hfit. split; intros <-.
    + rewrite <- Z.land_lor_distr_r. exact Hfit.
    + rewrite <- Z.land_lor_distr_r. exact Hfit.
  - intros ep' Hne. unfold usb_set_ep_rx_stat, usb_set_ep_tx_stat.
    by rewrite !EP_write_EP_ne.
  - done.
  - done.
  - done.
  - done.
Qed.

Lemma usb_set_ep_stat_compose_witness :
  let p := with_EP (<[3 := 0x6A63]> (fun _ => 0)) periph0 in
  EP (usb_set_ep_rx_stat 3 (Z.shiftl 3 12) (usb_set_ep_rx_stat 3 (Z.shiftl 1 12) p)) 3
  = EP (usb_set_ep_rx_stat 3 (Z.shiftl 3 12) p) 3 /\
  EP (usb_set_ep_rx_stat 3 (Z.shiftl 2 12) p) 3 = EP p 3 /\
  EP (usb_set_ep_tx_stat 3 (Z.shiftl 2 4) p) 3 = EP p 3.
Proof.
  intros p.
  destruct (usb_set_ep_stat_compose p 3 1 3 ltac:(lia) ltac:(lia))
    as (Hlast & _).
  destruct (usb_set_ep_stat_compose p 3 2 2 ltac:(lia) ltac:(lia))
    as (_ & _ & _ & Hsame & _).
  split_and!.
  - exact Hlast.
  - apply Hsame; reflexivity.
  - apply Hsame; reflexivity.
Defined.

(** X2.  [usb_set_ep_type] puts the given type in the type field and
    [usb_set_ep_kind] the given bit in the kind field; each leaves every
    other field of the register, the toggle-sensitive ones included, as it
    was.  [usb_clear_status_out] clears the kind bit. *)
Theorem usb_set_ep_type_kind_fields (p : usb_periph) (ep t k : Z) :
  0 <= t < 4 -> 0 <= k < 2 ->
  (ep_type (usb_set_ep_type ep (Z.shiftl t 9) p) ep = Z.shiftl t 9 /\
   same_fields type_others (EP p ep)
     (EP (usb_set_ep_type ep (Z.shiftl t 9) p) ep)) /\
  (ep_kind (usb_set_ep_kind ep (Z.shiftl k 8) p) ep = Z.shiftl k 8 /\
   same_fields kind_others (EP p ep)
     (EP (usb_set_ep_kind ep (Z.shiftl k 8) p) ep)) /\
  ep_kind (usb_clear_status_out ep p) ep = 0.
Proof.
  intros Ht Hk. unfold ep_type, ep_kind, usb_clear_status_out.
  change (usb_set_ep_kind ep 0 p) with (usb_set_ep_kind ep (Z.shiftl 0 8) p).
  rewrite usb_set_ep_type_value, !usb_set_ep_kind_value by lia.
  generalize (EP p ep) as r. intros r.
  unfold same_fields, type_others, kind_others.
  split_and!.
  - apply two_bit_cases in Ht as [-> | [-> | [-> | ->]]];
      epr_field_is r.
  - apply two_bit_cases in Ht as [-> | [-> | [-> | ->]]];
      same_fields_bits r.
  - assert (k = 0 \/ k = 1) as [-> | ->] by lia;
      epr_field_is r.
  - assert (k = 0 \/ k = 1) as [-> | ->] by lia; same_fields_bits r.
  - epr_field_is r.
Qed.

Lemma usb_set_ep_type_kind_fields_witness :
  let p := with_EP (<[0 := 0xEA63]> (fun _ => 0)) periph0 in
  (ep_type (usb_set_ep_type 0 (Z.shiftl 1 9) p) 0 = Z.shiftl 1 9 /\
   same_fields type_others (EP p 0)
     (EP (usb_set_ep_type 0 (Z.shiftl 1 9) p) 0)) /\
  (ep_kind (usb_set_ep_kind 0 (Z.shiftl 1 8) p) 0 = Z.shiftl 1 8 /\
   same_fields kind_others (EP p 0)
     (EP (usb_set_ep_kind 0 (Z.shiftl 1 8) p) 0)) /\
  ep_kind (usb_clear_status_out 0 p) 0 = 0.
Proof.
  intros p. apply (usb_set_ep_type_kind_fields p 0 1 1); lia.
Defined.

(** X3.  [usb_clear_ctr_rx] leaves the CTR_RX flag clear and
    [usb_clear_ctr_tx] the CTR_TX flag; each leaves every other field of the
    register as it was, the other CTR flag, both statuses and both data
    toggles included, and no other register is touched. *)
Theorem usb_clear_ctr_fields (p : usb_periph) (ep : Z) :
  (Z.land (EP (usb_clear_ctr_rx ep p) ep) USB_EP_CTR_RX = 0 /\
   same_fields ctr_rx_others (EP p ep) (EP (usb_clear_ctr_rx ep p) ep)) /\
  (Z.land (EP (usb_clear_ctr_tx ep p) ep) USB_EP_CTR_TX = 0 /\
   same_fields ctr_tx_others (EP p ep) (EP (usb_clear_ctr_tx ep p) ep)) /\
  (forall ep' : Z, ep' <> ep ->
     EP (usb_clear_ctr_rx ep p) ep' = EP p ep' /\
     EP (usb_clear_ctr_tx ep p) ep' = EP p ep').
Proof.
  destruct (usb_clear_ctr_value p ep) as [-> ->].
  split_and!.
  - generalize (EP p ep) as r. intros r. epr_field_is r.
  - generalize (EP p ep) as r. intros r.
    unfold same_fields, ctr_rx_others. same_fields_bits r.
  - generalize (EP p ep) as r. intros r. epr_field_is r.
  - generalize (EP p ep) as r. intros r.
    unfold same_fields, ctr_tx_others. same_fields_bits r.
  - intros ep' Hne. unfold usb_clear_ctr_rx, usb_clear_ctr_tx.
    by rewrite !EP_write_EP_ne.
Qed.

(** ** Buffer descriptor table: fields do not alias *)

Lemma bdt_ptr_value (p : usb_periph) (f : bdt_field) (ep : Z) :
  0 <= ep < 2 ^ 8 -> 0 <= BTABLE p < 2 ^ 16 ->
  bdt_ptr p f ep
  = USB_PMA_BASE
    + 2 * (BTABLE p + (ep * 8 + match f with
                                | BDT_TX_ADDR => 0
                                | BDT_TX_COUNT => 2
                                | BDT_RX_ADDR => 4
                                | BDT_RX_COUNT => 6
                                end)).
Proof.
  intros Hep Hb.
  destruct f; unfold bdt_ptr, usb_ep_tx_addr_ptr, usb_ep_tx_count_ptr,
    usb_ep_rx_addr_ptr, usb_ep_rx_count_ptr;
    rewrite usb_btable_ptr_small by lia; f_equal; lia.
Qed.

Lemma bdt_get_raw (p : usb_periph) (f : bdt_field) (ep : Z) :
  bdt_get p f ep
  = match f with
    | BDT_RX_COUNT => Z.land (u16 (pma p (bdt_ptr p f ep))) 0x3FF
    | _ => u16 (pma p (bdt_ptr p f ep))
    end.
Proof. by destruct f. Qed.

Lemma bdt_set_raw (f : bdt_setter) (ep v : Z) (p : usb_periph) :
  EP (bdt_set f ep v p) = EP p /\
  BTABLE (bdt_set f ep v p) = BTABLE p /\
  pma (bdt_set f ep v p)
  = <[bdt_ptr p (bdt_setter_field f) ep :=
        u32 (match f with
             | SET_TX_COUNT => v
             | _ => Z.land v (Z.lnot 0x1)
             end)]> (pma p).
Proof. by destruct f. Qed.

(** X4.  The fields of the buffer descriptor table do not alias: storing
    through any of the three setters changes the field it names, of the
    endpoint it names, and no other field of any endpoint; a count stored
    with [usb_set_ep_tx_count] reads back as stored.  Endpoint registers and
    the table base are left alone. *)
Theorem bdt_fields_independent (p : usb_periph) (f : bdt_setter)
    (f' : bdt_field) (ep ep' v : Z) :
  0 <= ep < 2 ^ 8 -> 0 <= ep' < 2 ^ 8 -> 0 <= BTABLE p < 2 ^ 16 ->
  0 <= v < 2 ^ 16 ->
  ((ep', f') <> (ep, bdt_setter_field f) ->
   bdt_get (bdt_set f ep v p) f' ep' = bdt_get p f' ep') /\
  usb_get_ep_tx_count (usb_set_ep_tx_count ep v p) ep = v /\
  EP (bdt_set f ep v p) = EP p /\
  BTABLE (bdt_set f ep v p) = BTABLE p.
Proof.
  intros Hep Hep' Hb Hv.
  destruct (bdt_set_raw f ep v p) as (HEP & HB & Hpma).
  split_and!; try done.
  - intros Hne. rewrite !bdt_get_raw.
    assert (bdt_ptr (bdt_set f ep v p) f' ep' = bdt_ptr p f' ep') as ->.
    { rewrite !bdt_ptr_value by (rewrite ?HB; lia). by rewrite HB. }
    rewrite Hpma. rewrite fn_lookup_insert_ne; [done|].
    rewrite !bdt_ptr_value by lia.
    intros Heq. apply Hne.
    destruct f, f'; simpl in Heq |- *;
      first [ f_equal; lia | exfalso; lia ].
  - unfold usb_get_ep_tx_count, usb_set_ep_tx_count, pma_store,
      usb_ep_tx_count_ptr, usb_btable_ptr. simpl.
    rewrite fn_lookup_insert, u32_small, u16_small by lia. done.
Qed.

Lemma bdt_fields_independent_witness :
  let p := usb_set_ep_rx_addr 3 0x110 periph0 in
  bdt_get (bdt_set SET_TX_COUNT 3 17 p) BDT_RX_ADDR 3 = bdt_get p BDT_RX_ADDR 3
  /\ usb_get_ep_tx_count (usb_set_ep_tx_count 3 17 p) 3 = 17.
Proof.
  intros p.
  destruct (bdt_fields_independent p SET_TX_COUNT BDT_RX_ADDR 3 3 17)
    as (Hother & Hback & _); [lia | lia | by vm_compute | lia |].
  split; [apply Hother; discriminate | exact Hback].
Defined.

(** ** Endpoint set-up at bus reset *)

Lemma EP_rx_stat_ne (q : usb_periph) (ep st ep' : Z) :
  ep' <> ep -> EP (usb_set_ep_rx_stat ep st q) ep' = EP q ep'.
Proof. intros Hne. unfold usb_set_ep_rx_stat. by rewrite EP_write_EP_ne. Qed.

Lemma EP_tx_stat_ne (q : usb_periph) (ep st ep' : Z) :
  ep' <> ep -> EP (usb_set_ep_tx_stat ep st q) ep' = EP q ep'.
Proof. intros Hne. unfold usb_set_ep_tx_stat. by rewrite EP_write_EP_ne. Qed.

Lemma EP_type_ne (q : usb_periph) (ep t ep' : Z) :
  ep' <> ep -> EP (usb_set_ep_type ep t q) ep' = EP q ep'.
Proof. intros Hne. unfold usb_set_ep_type. by rewrite EP_write_EP_ne. Qed.

Lemma EP_kind_ne (q : usb_periph) (ep ep' : Z) :
  ep' <> ep -> EP (usb_clear_status_out ep q) ep' = EP q ep'.
Proof.
  intros Hne. unfold usb_clear_status_out, usb_set_ep_kind.
  by rewrite EP_write_EP_ne.
Qed.

Lemma EP_clear_status_out (q : usb_periph) (ep : Z) :
  EP (usb_clear_status_out ep q) ep = Z.lor (Z.land (EP q ep) 0xFEFF) 0.
Proof. apply (usb_set_ep_kind_value q ep 0). lia. Qed.

Lemma EP_bdt_stores (q : usb_periph) (ep v : Z) :
  EP (usb_set_ep_rx_addr ep v q) = EP q /\
  EP (usb_set_ep_tx_addr ep v q) = EP q /\
  EP (usb_set_ep_rx_count ep v q) = EP q /\
  EP (usb_set_ep_tx_count ep v q) = EP q.
Proof. done. Qed.

(** One step through the set-up: the outermost routine either leaves the
    register looked at alone or assigns one of its fields. *)
Ltac reset_step Hbdt :=
  first
    [ rewrite EP_rx_stat_ne by done
    | rewrite EP_tx_stat_ne by done
    | rewrite EP_type_ne by done
    | rewrite EP_kind_ne by done
    | rewrite (proj1 (Hbdt _ _ _))
    | rewrite (proj1 (proj2 (Hbdt _ _ _)))
    | rewrite (proj2 (proj2 (Hbdt _ _ _)))
    | rewrite usb_set_ep_rx_stat_value by lia
    | rewrite usb_set_ep_tx_stat_value by lia
    | rewrite usb_set_ep_type_value by lia
    | rewrite EP_clear_status_out ].

(** The registers of the four endpoints after the set-up, as functions of
    what they held before. *)
Lemma usbReset_periph_registers (p : usb_periph) :
  let q := usbReset_periph p in
  EP q 0 = Z.lor (Z.land (EP p 0) 0xC8CF) 0x3210 /\
  EP q 1 = Z.lor (Z.land (EP p 1) 0xC9CF) 0x0020 /\
  EP q 2 = Z.lor (Z.land (EP p 2) 0xC9CF) 0x0620 /\
  EP q 3 = Z.lor (Z.land (EP p 3) 0xC9FF) 0x3000 /\
  (forall ep : Z, ep <> 0 -> ep <> 1 -> ep <> 2 -> ep <> 3 ->
     EP q ep = EP p ep).
Proof.
  intros q. subst q. unfold usbReset_periph. cbv zeta.
  cbv [USB_EP0 VCOM_RX_ENDP VCOM_TX_ENDP VCOM_NOTIFICATION_ENDP
       USB_EP_STAT_RX_VALID USB_EP_STAT_RX_DISABLED USB_EP_STAT_TX_STALL
       USB_EP_STAT_TX_NAK USB_EP_EP_TYPE_CONTROL USB_EP_EP_TYPE_BULK
       USB_EP_EP_TYPE_INTERRUPT].
  assert (forall q ep v,
            EP (usb_set_ep_rx_addr ep v q) = EP q /\
            EP (usb_set_ep_tx_addr ep v q) = EP q /\
            EP (usb_set_ep_rx_count ep v q) = EP q) as Hbdt by done.
  assert (forall b q k, EP (with_BTABLE b q) k = EP q k) as Hbt by done.
  split_and!.
  - repeat reset_step Hbdt. rewrite ?Hbt.
    generalize (EP p 0) as r. intros r. epr_eq r.
  - repeat reset_step Hbdt. rewrite ?Hbt.
    generalize (EP p 1) as r. intros r. epr_eq r.
  - repeat reset_step Hbdt. rewrite ?Hbt.
    generalize (EP p 2) as r. intros r. epr_eq r.
  - repeat reset_step Hbdt. rewrite ?Hbt.
    generalize (EP p 3) as r. intros r. epr_eq r.
  - intros ep H0 H1 H2 H3. repeat reset_step Hbdt. by rewrite ?Hbt.
Qed.

(** X5.  Whatever the endpoint registers held, the set-up of [usbReset]
    leaves endpoint 0 a control endpoint with TX at STALL, RX at VALID and
    the kind bit clear; the data IN endpoint 1 a bulk endpoint with TX at
    NAK and RX disabled; the notification endpoint 2 an interrupt endpoint
    with TX at NAK and RX disabled; the data OUT endpoint 3 a bulk endpoint
    with RX at VALID, its TX status being left as it was.  On no endpoint
    does it change a data toggle, a CTR flag, the setup flag or the address
    field, and the registers of endpoints 4 to 7 are not written. *)
Theorem usbReset_endpoint_setup (p : usb_periph) :
  let q := usbReset_periph p in
  (ep_type q 0 = USB_EP_EP_TYPE_CONTROL /\
   ep_stat_tx q 0 = USB_EP_STAT_TX_STALL /\
   ep_stat_rx q 0 = USB_EP_STAT_RX_VALID /\
   ep_kind q 0 = 0) /\
  (ep_type q VCOM_TX_ENDP = USB_EP_EP_TYPE_BULK /\
   ep_stat_tx q VCOM_TX_ENDP = USB_EP_STAT_TX_NAK /\
   ep_stat_rx q VCOM_TX_ENDP = USB_EP_STAT_RX_DISABLED) /\
  (ep_type q VCOM_NOTIFICATION_ENDP = USB_EP_EP_TYPE_INTERRUPT /\
   ep_stat_tx q VCOM_NOTIFICATION_ENDP = USB_EP_STAT_TX_NAK /\
   ep_stat_rx q VCOM_NOTIFICATION_ENDP = USB_EP_STAT_RX_DISABLED) /\
  (ep_type q VCOM_RX_ENDP = USB_EP_EP_TYPE_BULK /\
   ep_stat_rx q VCOM_RX_ENDP = USB_EP_STAT_RX_VALID /\
   ep_stat_tx q VCOM_RX_ENDP = ep_stat_tx p VCOM_RX_ENDP) /\
  (forall ep : Z, same_fields reset_untouched (EP p ep) (EP q ep)) /\
  (forall ep : Z, ep < 0 \/ 3 < ep -> EP q ep = EP p ep).
Proof.
  intros q.
  destruct (usbReset_periph_registers p) as (H0 & H1 & H2 & H3 & Hrest).
  fold q in H0, H1, H2, H3, Hrest.
  unfold ep_type, ep_stat_rx, ep_stat_tx, ep_kind.
  change VCOM_TX_ENDP with 1. change VCOM_NOTIFICATION_ENDP with 2.
  change VCOM_RX_ENDP with 3.
  rewrite H0, H1, H2, H3.
  split_and!.
  - generalize (EP p 0) as r. intros r. epr_field_is r.
  - generalize (EP p 0) as r. intros r. epr_field_is r.
  - generalize (EP p 0) as r. intros r. epr_field_is r.
  - generalize (EP p 0) as r. intros r. epr_field_is r.
  - generalize (EP p 1) as r. intros r. epr_field_is r.
  - generalize (EP p 1) as r. intros r. epr_field_is r.
  - generalize (EP p 1) as r. intros r. epr_field_is r.
  - generalize (EP p 2) as r. intros r. epr_field_is r.
  - generalize (EP p 2) as r. intros r. epr_field_is r.
  - generalize (EP p 2) as r. intros r. epr_field_is r.
  - generalize (EP p 3) as r. intros r. epr_field_is r.
  - generalize (EP p 3) as r. intros r. epr_field_is r.
  - generalize (EP p 3) as r. intros r. epr_bits r.
  - intros ep. unfold same_fields, reset_untouched.
    destruct (decide (ep = 0)) as [-> | N0];
      [rewrite H0; generalize (EP p 0) as r; intros r; same_fields_bits r|].
    destruct (decide (ep = 1)) as [-> | N1];
      [rewrite H1; generalize (EP p 1) as r; intros r; same_fields_bits r|].
    destruct (decide (ep = 2)) as [-> | N2];
      [rewrite H2; generalize (EP p 2) as r; intros r; same_fields_bits r|].
    destruct (decide (ep = 3)) as [-> | N3];
      [rewrite H3; generalize (EP p 3) as r; intros r; same_fields_bits r|].
    rewrite Hrest by done.
    repeat (apply Forall_cons_2; [done|]). apply Forall_nil_2.
  - intros ep Hep. apply Hrest; lia.
Qed.

(** X6.  The set-up of [usbReset] puts the buffer table at offset 0 and
    the five buffer addresses read back as configured: none of the stores
    to the table lands on another's field.  The stores reach seven words of
    the packet memory and no other. *)
Theorem usbReset_buffer_table (p : usb_periph) :
  let q := usbReset_periph p in
  BTABLE q = BTABLE_ADDRESS /\
  usb_get_ep_rx_addr q USB_EP0 = VCOM_CTRL_RX_ADDR /\
  usb_get_ep_tx_addr q USB_EP0 = VCOM_CTRL_TX_ADDR /\
  usb_get_ep_tx_addr q VCOM_TX_ENDP = VCOM_TX_ADDR /\
  usb_get_ep_tx_addr q VCOM_NOTIFICATION_ENDP = VCOM_NOTIFICATION_ADDR /\
  usb_get_ep_rx_addr q VCOM_RX_ENDP = VCOM_RX_ADDR /\
  (forall a : Z,
     a ∉ [USB_PMA_BASE; USB_PMA_BASE + 8; USB_PMA_BASE + 12;
          USB_PMA_BASE + 16; USB_PMA_BASE + 32; USB_PMA_BASE + 56;
          USB_PMA_BASE + 60] ->
     pma q a = pma p a).
Proof.
  intros q. subst q. split_and!; try (by vm_compute).
  intros a Ha.
  unfold usbReset_periph. cbv zeta.
  assert (forall ep st q, pma (usb_set_ep_rx_stat ep st q) = pma q) as Hrx
    by done.
  assert (forall ep st q, pma (usb_set_ep_tx_stat ep st q) = pma q) as Htx
    by done.
  assert (forall ep t q, pma (usb_set_ep_type ep t q) = pma q) as Hty
    by done.
  assert (forall ep q, pma (usb_clear_status_out ep q) = pma q) as Hk
    by done.
  rewrite ?Hrx, ?Htx, ?Hty, ?Hk.
  unfold usb_set_ep_rx_addr, usb_set_ep_tx_addr, usb_set_ep_rx_count,
    pma_store.
  cbn [pma with_pma].
  repeat (rewrite ?Hrx, ?Htx, ?Hty, ?Hk; cbn [pma with_pma];
          rewrite fn_lookup_insert_ne;
          [| intros <-; apply Ha; vm_compute;
             repeat first [ apply list_elem_of_here
                          | apply list_elem_of_further ] ]).
  rewrite ?Hrx, ?Htx, ?Hty, ?Hk. done.
Qed.

(** ** Bus reset and the receive path *)

Lemma usblib_eval_keeps_rx_stat (p : usb_periph) :
  ep_stat_rx (SetDeviceAddress (UsbLib := usblib_eval) 0 p) VCOM_RX_ENDP
  = ep_stat_rx p VCOM_RX_ENDP.
Proof.
  unfold ep_stat_rx.
  change (SetDeviceAddress 0 p)
    with (set_ep_address 3 (set_ep_address 2 (set_ep_address 1
            (set_ep_address 0 p)))).
  unfold set_ep_address at 1. rewrite EP_write_EP_eq.
  unfold set_ep_address. rewrite !EP_write_EP_ne by done.
  change VCOM_RX_ENDP with 3.
  generalize (EP p 3) as r. intros r.
  unfold epr_hw_write. epr_bits r.
Qed.

Section ResetRx.
Context `{UsbLib}.

(** X7.  A bus reset re-arms the data OUT endpoint whatever is pending.
    Provided the stack's [SetDeviceAddress] keeps that endpoint's RX status,
    after [usbReset] the endpoint is at VALID while [newBytes], the read
    cursor and the receive buffer are what they were; a packet completing
    then replaces [newBytes] by its count and leaves the read cursor where
    it was. *)
Theorem usbReset_rearms_over_pending_data (s : vcom) :
  (forall p : usb_periph,
     ep_stat_rx (SetDeviceAddress 0 p) VCOM_RX_ENDP
     = ep_stat_rx p VCOM_RX_ENDP) ->
  newBytes (usbReset s) = newBytes s /\
  rx_offset (usbReset s) = rx_offset s /\
  vcomBufferRx (usbReset s) = vcomBufferRx s /\
  ep_stat_rx (hw (usbReset s)) VCOM_RX_ENDP = USB_EP_STAT_RX_VALID /\
  (forall (p : usb_periph) (s' : vcom),
     vcomDataRxCb (set_hw p (usbReset s)) = Some s' ->
     newBytes s' = usb_get_ep_rx_count p VCOM_RX_ENDP /\
     rx_offset s' = rx_offset s).
Proof.
  intros Hsda. split_and!; try done.
  - cbn [usbReset hw set_hw set_Current_Configuration set_Current_Feature
         set_usblib_state set_recvBufIn set_recvBufOut set_maxNewBytes
         set_countTx].
    rewrite Hsda. unfold ep_stat_rx. change VCOM_RX_ENDP with 3.
    destruct (usbReset_periph_registers (hw s)) as (_ & _ & _ & -> & _).
    generalize (EP (hw s) 3) as r. intros r. epr_field_is r.
  - intros p s' Hcb.
    by apply vcomDataRxCb_frame in Hcb as (_ & -> & _ & _ & -> & _).
Qed.
End ResetRx.

Lemma usbReset_rearms_over_pending_data_witness :
  let s := after_rx_packet [104; 105; 33]
             (vcom_init periph0 0 0 USB_UNCONNECTED) in
  newBytes (usbReset (H := usblib_eval) s) = 3 /\
  ep_stat_rx (hw (usbReset (H := usblib_eval) s)) VCOM_RX_ENDP
  = USB_EP_STAT_RX_VALID.
Proof.
  intros s.
  destruct (usbReset_rearms_over_pending_data (H := usblib_eval) s
              usblib_eval_keeps_rx_stat) as (Hnb & _ & _ & Hst & _).
  split; [rewrite Hnb; reflexivity | exact Hst].
Defined.

(** ** Requests without data stage *)

Section NoData.
Context `{UsbLib}.

(** X8.  [usbNoDataSetup] returns [USB_SUCCESS] exactly for a class request
    to the interface that is SET_COMM_FEATURE or SET_CONTROL_LINE_STATE, and
    [USB_UNSUPPORT] for everything else; it changes the state only for
    SET_CONTROL_LINE_STATE, and then only the line bits and the reset
    detector. *)
Theorem usbNoDataSetup_support (Type_Recipient request bb0 : Z) (s : vcom) :
  let r := usbNoDataSetup Type_Recipient request bb0 s in
  let served :=
    Type_Recipient = Z.lor CLASS_REQUEST INTERFACE_RECIPIENT /\
    (request = SET_COMM_FEATURE \/ request = SET_CONTROL_LINE_STATE) in
  (served -> fst r = USB_SUCCESS) /\
  (~ served -> fst r = USB_UNSUPPORT) /\
  (~ (Type_Recipient = Z.lor CLASS_REQUEST INTERFACE_RECIPIENT /\
      request = SET_CONTROL_LINE_STATE) -> snd r = s) /\
  snd r = set_reset_state (reset_state (snd r))
            (set_line_dtr_rts (line_dtr_rts (snd r)) s).
Proof.
  intros r served. subst r served. unfold usbNoDataSetup.
  destruct (decide (Type_Recipient = Z.lor CLASS_REQUEST INTERFACE_RECIPIENT))
    as [Htr | Htr];
    [destruct (decide (request = SET_COMM_FEATURE)) as [Hc | Hc];
     [| destruct (decide (request = SET_CONTROL_LINE_STATE)) as [Hl | Hl]] |];
    cbn [fst snd]; split_and!; try done; try tauto;
    try (intros Hn; exfalso; apply Hn; tauto);
    try (intros [_ [? | ?]]; done);
    try (by destruct s).
Qed.

Lemma usb_cdcacm_get_dtr_bits (s : vcom) (b : Z) :
  line_dtr_rts s = Z.land b 3 ->
  usb_cdcacm_get_dtr s = Z.b2z (Z.testbit b 0).
Proof.
  intros Hl. unfold usb_cdcacm_get_dtr, CONTROL_LINE_DTR.
  rewrite Hl, land_3_1.
  destruct (land_1_cases b) as [[Hz ->] | [Hnz ->]].
  - by rewrite decide_False by (intros Hc; by apply Hc).
  - by rewrite decide_True.
Qed.

Lemma usbNoDataSetup_line_inv (Type_Recipient request bb0 : Z) (s : vcom) :
  line_inv s -> line_inv (snd (usbNoDataSetup Type_Recipient request bb0 s)).
Proof.
  intros Hinv.
  destruct (decide (Type_Recipient = Z.lor CLASS_REQUEST INTERFACE_RECIPIENT
                    /\ request = SET_CONTROL_LINE_STATE)) as [[-> ->] | Hn].
  2: { assert (snd (usbNoDataSetup Type_Recipient request bb0 s) = s) as ->;
         [|done].
       unfold usbNoDataSetup. repeat case_decide; try done.
       exfalso. by apply Hn. }
  rewrite usbNoDataSetup_line_state. cbn [snd].
  unfold line_inv.
  rewrite (usb_cdcacm_get_dtr_bits _ bb0) by done.
  cbn [reset_state line_dtr_rts set_reset_state set_line_dtr_rts].
  assert (0 <= Z.land bb0 3 <= 3) as Hr.
  { pose proof (Z.land_ones bb0 2 ltac:(lia)) as Hm.
    change (Z.ones 2) with 3 in Hm. rewrite Hm.
    pose proof (Z.mod_pos_bound bb0 (2 ^ 2)). lia. }
  split_and!; try lia.
  - destruct (Z.testbit bb0 0); [done|].
    split; [|done]. by destruct (reset_state s).
  - destruct (Z.testbit bb0 0); [done|]. by destruct (reset_state s).
Qed.

Lemma step_line_inv (o : op) (s s' : vcom) :
  line_inv s -> step o s = Some s' -> line_inv s'.
Proof.
  intros Hinv Hstep.
  destruct o as [buf len|len| |p|tr rq b| ]; simpl in Hstep.
  - destruct (usb_cdcacm_tx buf len s) as [[n s1]|] eqn:Htx; [|done].
    simpl in Hstep. injection Hstep as <-.
    unfold usb_cdcacm_tx in Htx.
    repeat case_decide; simplify_option_eq; done.
  - destruct (usb_cdcacm_rx len s) as [[[out n] s1]|] eqn:Hrx; [|done].
    simpl in Hstep. injection Hstep as <-.
    apply usb_cdcacm_rx_frame in Hrx as (_ & _ & Hr & Hl).
    unfold line_inv, usb_cdcacm_get_dtr in *. by rewrite Hr, Hl.
  - by injection Hstep as <-.
  - apply vcomDataRxCb_frame in Hstep as (_ & _ & Hr & Hl & _).
    unfold line_inv, usb_cdcacm_get_dtr in *. simpl in Hr, Hl.
    by rewrite Hr, Hl.
  - injection Hstep as <-. by apply usbNoDataSetup_line_inv.
  - by injection Hstep as <-.
Qed.

(** X9.  Through any sequence of transmit and receive calls, callbacks,
    control requests and bus resets from device initialisation, the stored
    line bits are a 2-bit value, the reset detector is at HIGH exactly when
    [usb_cdcacm_get_dtr] returns 1, and it is at UNSET only while both line
    bits are 0; [usb_cdcacm_get_dtr] and [usb_cdcacm_get_rts] return 0 or
    1. *)
Theorem line_state_invariant (os : list op) (hw0 : usb_periph) (cfg feat : Z)
    (st : usb_dev_state) (s : vcom) :
  run os (vcom_init hw0 cfg feat st) = Some s ->
  line_inv s /\
  (usb_cdcacm_get_dtr s = 0 \/ usb_cdcacm_get_dtr s = 1) /\
  (usb_cdcacm_get_rts s = 0 \/ usb_cdcacm_get_rts s = 1).
Proof.
  intros Hrun. split.
  - assert (line_inv (vcom_init hw0 cfg feat st)) as Hinit.
    { unfold line_inv, usb_cdcacm_get_dtr. cbn. split_and!; try done; lia. }
    revert Hinit Hrun. generalize (vcom_init hw0 cfg feat st) as s0.
    induction os as [|o os IH]; intros s0 Hinit Hrun; simpl in Hrun.
    + by injection Hrun as <-.
    + destruct (step o s0) as [s1|] eqn:Hstep; [|done]. simpl in Hrun.
      eapply IH; [|exact Hrun]. by eapply step_line_inv.
  - unfold usb_cdcacm_get_dtr, usb_cdcacm_get_rts.
    split; case_decide; auto.
Qed.

(** X10.  NEGEDGE is transient: the detector is at NEGEDGE after a
    SET_CONTROL_LINE_STATE request only if it was at HIGH before and the
    request has DTR clear, and the next such request always takes it away
    from NEGEDGE, to LOW or to HIGH. *)
Theorem negedge_transient (s : vcom) (b1 b2 : Z) :
  let req b t := snd (usbNoDataSetup (Z.lor CLASS_REQUEST INTERFACE_RECIPIENT)
                        SET_CONTROL_LINE_STATE b t) in
  (reset_state (req b1 s) = DTR_NEGEDGE <->
   reset_state s = DTR_HIGH /\ Z.testbit b1 0 = false) /\
  reset_state (req b2 (req b1 s))
  = (if Z.testbit b2 0 then DTR_HIGH
     else if Z.testbit b1 0 then DTR_NEGEDGE else DTR_LOW) /\
  (reset_state (req b1 s) = DTR_NEGEDGE ->
   reset_state (req b2 (req b1 s)) <> DTR_NEGEDGE).
Proof.
  intros req. subst req. cbv beta.
  rewrite !usbNoDataSetup_line_state. cbn [snd reset_state set_reset_state
    set_line_dtr_rts].
  destruct (Z.testbit b1 0), (Z.testbit b2 0), (reset_state s);
    split_and!; try done; try (split; [done | intros [? ?]; done]).
Qed.
End NoData.

Lemma usbNoDataSetup_support_witness :
  fst (usbNoDataSetup (H := usblib_eval) 0x21 SET_COMM_FEATURE 1
         (vcom_init periph0 0 0 USB_UNCONNECTED)) = USB_SUCCESS /\
  fst (usbNoDataSetup (H := usblib_eval) 0x21 0x23 1
         (vcom_init periph0 0 0 USB_UNCONNECTED)) = USB_UNSUPPORT /\
  snd (usbNoDataSetup (H := usblib_eval) 0x41 SET_CONTROL_LINE_STATE 1
         (vcom_init periph0 0 0 USB_UNCONNECTED))
  = vcom_init periph0 0 0 USB_UNCONNECTED.
Proof.
  split_and!.
  - destruct (usbNoDataSetup_support (H := usblib_eval) 0x21 SET_COMM_FEATURE
                1 (vcom_init periph0 0 0 USB_UNCONNECTED)) as (Hs & _).
    apply Hs. split; [reflexivity | by left].
  - destruct (usbNoDataSetup_support (H := usblib_eval) 0x21 0x23
                1 (vcom_init periph0 0 0 USB_UNCONNECTED)) as (_ & Hu & _).
    apply Hu. intros [_ [? | ?]]; discriminate.
  - destruct (usbNoDataSetup_support (H := usblib_eval) 0x41
                SET_CONTROL_LINE_STATE
                1 (vcom_init periph0 0 0 USB_UNCONNECTED)) as (_ & _ & Hk & _).
    apply Hk. intros [? _]. discriminate.
Defined.

Lemma line_state_invariant_witness :
  exists s : vcom,
    run (H := usblib_eval)
      [OpNoDataSetup 0x21 SET_CONTROL_LINE_STATE 3; OpTx [65] 1; OpReset]
      (vcom_init periph0 0 0 USB_UNCONNECTED) = Some s /\
    line_inv s /\ reset_state s = DTR_HIGH.
Proof.
  eexists. split; [reflexivity|]. split; [|reflexivity].
  apply (line_state_invariant (H := usblib_eval)
           [OpNoDataSetup 0x21 SET_CONTROL_LINE_STATE 3; OpTx [65] 1; OpReset]
           periph0 0 0 USB_UNCONNECTED).
  reflexivity.
Defined.

Lemma negedge_transient_witness :
  let s := set_reset_state DTR_HIGH (vcom_init periph0 0 0 USB_UNCONNECTED) in
  let req b t := snd (usbNoDataSetup (H := usblib_eval) 0x21
                        SET_CONTROL_LINE_STATE b t) in
  reset_state (req 0 s) = DTR_NEGEDGE /\
  reset_state (req 0 (req 0 s)) <> DTR_NEGEDGE.
Proof.
  intros s req.
  destruct (negedge_transient (H := usblib_eval) s 0 0) as (Hiff & _ & Hnext).
  assert (reset_state (req 0 s) = DTR_NEGEDGE) as Hn.
  { apply Hiff. split; reflexivity. }
  split; [exact Hn | exact (Hnext Hn)].
Defined.

(** ** Transmit side *)

Lemma usb_cdcacm_tx_countTx (buf : list Z) (len n : Z) (s s' : vcom) :
  0 <= len < 2 ^ 32 ->
  usb_cdcacm_tx buf len s = Some (n, s') ->
  (countTx s <> 0 /\ n = 0 /\ s' = s) \/
  (countTx s = 0 /\ n = Z.min len 32 /\ countTx s' = n).
Proof.
  intros Hlen Htx.
  destruct (decide (countTx s = 0)) as [Hz | Hnz].
  - right. destruct (decide (len = 0)) as [-> | Hl0].
    + rewrite usb_cdcacm_tx_zero in Htx. injection Htx as <- <-.
      split_and!; [done | lia | done].
    + unfold usb_cdcacm_tx in Htx.
      rewrite decide_False in Htx by (intros Hc; by apply Hc).
      change (VCOM_TX_EPSIZE `quot` 2) with 32 in Htx.
      assert ((if decide (len > 32) then 32 else len) = Z.min len 32) as Hmin
        by (destruct (decide (len > 32)); lia).
      rewrite Hmin in Htx. rewrite decide_True in Htx by lia.
      destruct (usb_copy_to_pma _ _ _ _) as [hw1|]; [|done].
      simpl in Htx. injection Htx as <- <-. simpl.
      rewrite Hz, u32_small by lia. split_and!; [done | lia | lia].
  - left. rewrite usb_cdcacm_tx_busy in Htx by done.
    injection Htx as <- <-. done.
Qed.

Section TxBound.
Context `{UsbLib}.

Lemma step_tx_bound (o : op) (s s' : vcom) :
  op_wf o -> 0 <= countTx s <= 32 -> step o s = Some s' ->
  0 <= countTx s' <= 32.
Proof.
  intros Hwf Hb Hstep.
  destruct o as [buf len|len| |p|tr rq b| ]; simpl in Hstep, Hwf.
  - destruct (usb_cdcacm_tx buf len s) as [[n s1]|] eqn:Htx; [|done].
    simpl in Hstep. injection Hstep as <-.
    destruct (usb_cdcacm_tx_countTx buf len n s s1 Hwf Htx)
      as [(_ & _ & ->) | (_ & Hn & ->)]; lia.
  - destruct (usb_cdcacm_rx len s) as [[[out n] s1]|] eqn:Hrx; [|done].
    simpl in Hstep. injection Hstep as <-.
    apply usb_cdcacm_rx_frame in Hrx as (-> & _). done.
  - injection Hstep as <-. simpl. lia.
  - apply vcomDataRxCb_frame in Hstep as (-> & _). done.
  - injection Hstep as <-. unfold usbNoDataSetup. by repeat case_decide.
  - injection Hstep as <-. simpl. lia.
Qed.

(** X11.  From device initialisation, whatever transmit and receive calls
    (with lengths that are [uint32_t] values), callbacks, control requests
    and bus resets follow, [countTx] stays between 0 and
    [VCOM_TX_EPSIZE / 2]; so the 16-bit result of [usb_cdcacm_get_pending]
    is [countTx] itself, and it is 0 exactly when a transmission can be
    accepted. *)
Theorem tx_pending_bounded (os : list op) (hw0 : usb_periph) (cfg feat : Z)
    (st : usb_dev_state) (s : vcom) :
  Forall op_wf os ->
  run os (vcom_init hw0 cfg feat st) = Some s ->
  0 <= countTx s <= VCOM_TX_EPSIZE `quot` 2 /\
  usb_cdcacm_get_pending s = countTx s /\
  (usb_cdcacm_get_pending s = 0 <-> countTx s = 0).
Proof.
  change (VCOM_TX_EPSIZE `quot` 2) with 32.
  intros Hwf Hrun.
  assert (0 <= countTx s <= 32) as Hb.
  { assert (0 <= countTx (vcom_init hw0 cfg feat st) <= 32) as Hinit
      by (simpl; lia).
    revert Hinit Hrun. generalize (vcom_init hw0 cfg feat st) as s0.
    induction Hwf as [|o os Ho _ IH]; intros s0 Hinit Hrun; simpl in Hrun.
    - by injection Hrun as <-.
    - destruct (step o s0) as [s1|] eqn:Hstep; [|done]. simpl in Hrun.
      eapply IH; [|exact Hrun]. by eapply step_tx_bound. }
  assert (usb_cdcacm_get_pending s = countTx s) as Hp.
  { unfold usb_cdcacm_get_pending. apply u16_small. lia. }
  split_and!; try lia; try done; by rewrite Hp.
Qed.
End TxBound.

Lemma tx_pending_bounded_witness :
  exists s : vcom,
    run (H := usblib_eval)
      [OpTx (replicate 40 65) 40; OpRx 5; OpTx [1] 1]
      (vcom_init periph0 0 0 USB_UNCONNECTED) = Some s /\
    0 <= countTx s <= VCOM_TX_EPSIZE `quot` 2.
Proof.
  destruct (run (H := usblib_eval)
              [OpTx (replicate 40 65) 40; OpRx 5; OpTx [1] 1]
              (vcom_init periph0 0 0 USB_UNCONNECTED)) as [s|] eqn:Hrun;
    [|vm_compute in Hrun; discriminate].
  exists s. split; [reflexivity|].
  refine (proj1 (tx_pending_bounded (H := usblib_eval)
           [OpTx (replicate 40 65) 40; OpRx 5; OpTx [1] 1]
           periph0 0 0 USB_UNCONNECTED s _ Hrun)).
  repeat (apply Forall_cons_2; [cbn [op_wf]; lia|]). apply Forall_nil_2.
Defined.

Section PutcBlocks.
Context `{UsbLib}.

(** X12.  [usb_cdcacm_putc] with no transmission in flight is one call of
    [usb_cdcacm_tx] on the byte, which is accepted and leaves [countTx] at
    1.  With a transmission in flight every call of [usb_cdcacm_tx] it
    makes returns 0 and changes nothing, so no number of iterations lets
    its loop end by itself.  It returns once [countTx] has been cleared,
    and that is done by the TX-complete callback and by a bus reset
    alike. *)
Theorem usb_cdcacm_putc_blocks (fuel : nat) (ch : Z) (s : vcom) :
  (countTx s = 0 ->
   exists s' : vcom,
     usb_cdcacm_putc (S fuel) ch s = Some s' /\
     usb_cdcacm_tx [u8 ch] 1 s = Some (1, s') /\
     countTx s' = 1) /\
  (countTx s <> 0 ->
   usb_cdcacm_tx [u8 ch] 1 s = Some (0, s) /\
   usb_cdcacm_putc fuel ch s = None) /\
  (exists s' : vcom,
     usb_cdcacm_putc (S fuel) ch (vcomDataTxCb s) = Some s' /\
     countTx s' = 1) /\
  (exists s' : vcom,
     usb_cdcacm_putc (S fuel) ch (usbReset s) = Some s' /\
     countTx s' = 1).
Proof.
  assert (forall t, countTx t = 0 ->
            exists t', usb_cdcacm_putc (S fuel) ch t = Some t' /\
                       usb_cdcacm_tx [u8 ch] 1 t = Some (1, t') /\
                       countTx t' = 1) as Hidle.
  { intros t Ht. eexists. cbn [usb_cdcacm_putc].
    rewrite (usb_cdcacm_tx_idle [u8 ch] 1 t Ht) by (simpl; lia).
    simpl. done. }
  split_and!.
  - apply Hidle.
  - intros Hnz. split; [by apply usb_cdcacm_tx_busy|]. clear Hidle.
    induction fuel as [|fuel IH]; [done|].
    cbn [usb_cdcacm_putc]. rewrite usb_cdcacm_tx_busy by done. simpl.
    exact IH.
  - destruct (Hidle (vcomDataTxCb s) eq_refl) as (s' & Hp & _ & Hc).
    by exists s'.
  - destruct (Hidle (usbReset s) eq_refl) as (s' & Hp & _ & Hc).
    by exists s'.
Qed.
End PutcBlocks.

Lemma usb_cdcacm_putc_blocks_witness :
  let s0 := vcom_init periph0 0 0 USB_UNCONNECTED in
  (exists s' : vcom,
     usb_cdcacm_putc 1 65 s0 = Some s' /\
     usb_cdcacm_tx [u8 65] 1 s0 = Some (1, s') /\ countTx s' = 1) /\
  (usb_cdcacm_tx [u8 65] 1 (set_countTx 7 s0) = Some (0, set_countTx 7 s0) /\
   usb_cdcacm_putc 1000 65 (set_countTx 7 s0) = None) /\
  (exists s' : vcom,
     usb_cdcacm_putc 1 65 (usbReset (H := usblib_eval) (set_countTx 7 s0))
     = Some s' /\
     countTx s' = 1).
Proof.
  intros s0. refine (conj _ (conj _ _)).
  - refine (proj1 (usb_cdcacm_putc_blocks (H := usblib_eval) 0 65 s0) _).
    reflexivity.
  - refine (proj1 (proj2 (usb_cdcacm_putc_blocks (H := usblib_eval) 1000 65
                            (set_countTx 7 s0))) _).
    discriminate.
  - exact (proj2 (proj2 (proj2 (usb_cdcacm_putc_blocks (H := usblib_eval)
                                  0 65 (set_countTx 7 s0))))).
Defined.

(** X13.  [usb_cdcacm_tx] looks at no byte of the caller's buffer beyond
    the count it accepts: on a buffer cut to its first
    [min len (VCOM_TX_EPSIZE / 2)] bytes it returns the same count and the
    same state.  What lies behind the cap has to be submitted again by the
    caller. *)
Theorem usb_cdcacm_tx_prefix_only (buf : list Z) (len : Z) (s : vcom) :
  0 <= len < 2 ^ 32 ->
  Z.min len (VCOM_TX_EPSIZE `quot` 2) <= Z.of_nat (length buf) ->
  usb_cdcacm_tx (take (Z.to_nat (Z.min len (VCOM_TX_EPSIZE `quot` 2))) buf)
    len s
  = usb_cdcacm_tx buf len s.
Proof.
  change (VCOM_TX_EPSIZE `quot` 2) with 32. intros Hlen Hbuf.
  destruct (decide (countTx s = 0)) as [Hz | Hnz];
    [|by rewrite !usb_cdcacm_tx_busy].
  destruct (decide (len = 0)) as [-> | Hl0];
    [by rewrite !usb_cdcacm_tx_zero|].
  rewrite !usb_cdcacm_tx_idle; try done; try lia.
  - by rewrite take_take, Nat.min_id.
  - rewrite length_take. lia.
Qed.

Lemma usb_cdcacm_tx_prefix_only_witness :
  let s0 := vcom_init periph0 0 0 USB_UNCONNECTED in
  usb_cdcacm_tx (take (Z.to_nat (Z.min 40 (VCOM_TX_EPSIZE `quot` 2)))
                   (replicate 40 65)) 40 s0
  = usb_cdcacm_tx (replicate 40 65) 40 s0.
Proof.
  intros s0. apply (usb_cdcacm_tx_prefix_only (replicate 40 65) 40 s0).
  - lia.
  - by vm_compute.
Defined.

(** ** Receive side: nothing to read, and reads in pieces *)

Lemma eta_newBytes_rx_offset (s : vcom) :
  set_rx_offset (rx_offset s) (set_newBytes (newBytes s) s) = s.
Proof. by destruct s. Qed.

(** X14.  A call of [usb_cdcacm_rx] while nothing is available reads no
    byte of the buffer and returns 0, yet re-arms the endpoint: RX status
    VALID, expected count [VCOM_RX_EPSIZE], read cursor 0.  A call with
    length 0 while bytes are available returns 0 and leaves the state as it
    is.  A completion that reports 0 bytes leaves 0 available, the receive
    buffer as it was and the endpoint at NAK, where it stays until such a
    call of [usb_cdcacm_rx] is made. *)
Theorem usb_cdcacm_rx_nothing_to_read (len : Z) (p : usb_periph) (s : vcom) :
  (newBytes s = 0 -> 0 <= len ->
   exists s' : vcom,
     usb_cdcacm_rx len s = Some ([], 0, s') /\
     newBytes s' = 0 /\ rx_offset s' = 0 /\
     ep_stat_rx (hw s') VCOM_RX_ENDP = USB_EP_STAT_RX_VALID /\
     bdt_rx_count (hw s') VCOM_RX_ENDP = VCOM_RX_EPSIZE) /\
  (0 < newBytes s < 2 ^ 32 -> 0 <= rx_offset s < 2 ^ 32 ->
   usb_cdcacm_rx 0 s = Some ([], 0, s)) /\
  (usb_get_ep_rx_count p VCOM_RX_ENDP = 0 ->
   exists s' : vcom,
     vcomDataRxCb (set_hw p s) = Some s' /\
     usb_cdcacm_data_available s' = 0 /\
     vcomBufferRx s' = vcomBufferRx s /\
     ep_stat_rx (hw s') VCOM_RX_ENDP = USB_EP_STAT_RX_NAK).
Proof.
  split_and!.
  - intros Hz Hlen. unfold usb_cdcacm_rx. rewrite Hz.
    assert ((if decide (len > 0) then 0 else len) = 0) as ->
      by (destruct (decide (len > 0)); lia).
    cbn [Z.to_nat rx_copy mbind option_bind]. cbn [mret option_ret].
    rewrite decide_True by done.
    eexists. split; [reflexivity|]. cbn [newBytes rx_offset hw set_rx_offset
      set_hw set_newBytes]. split_and!; try done.
    + apply (rx_stat_after_set _ 3). lia.
    + apply bdt_rx_count_rearmed.
  - intros Hnb Hoff. unfold usb_cdcacm_rx.
    rewrite decide_False by lia.
    cbn [Z.to_nat rx_copy mbind option_bind].
    rewrite Z.sub_0_r, Z.add_0_r.
    cbn [rx_offset set_newBytes].
    rewrite !u32_small by lia.
    rewrite decide_False by (cbn [newBytes set_rx_offset set_newBytes]; lia).
    by rewrite eta_newBytes_rx_offset.
  - intros Hk.
    destruct (vcomDataRxCb_returns (set_hw p s)) as (s' & Hcb & Hbuf & _).
    { cbn [hw set_hw vcomBufferRx]. rewrite Hk. lia. }
    exists s'. cbn [hw set_hw vcomBufferRx] in Hbuf. rewrite Hk in Hbuf.
    pose proof Hcb as Hf.
    apply vcomDataRxCb_frame in Hf as (_ & _ & _ & _ & Hnb & Hhw).
    cbn [hw set_hw] in Hnb, Hhw.
    split_and!; try done.
    + unfold usb_cdcacm_data_available. by rewrite Hnb.
    + rewrite Hhw. apply (rx_stat_after_set p 2). lia.
Qed.

Lemma usb_cdcacm_rx_nothing_to_read_witness :
  let s0 := vcom_init periph0 0 0 USB_UNCONNECTED in
  let s1 := after_rx_packet [104; 105; 33] s0 in
  (exists s' : vcom,
     usb_cdcacm_rx 8 s0 = Some ([], 0, s') /\
     newBytes s' = 0 /\ rx_offset s' = 0 /\
     ep_stat_rx (hw s') VCOM_RX_ENDP = USB_EP_STAT_RX_VALID /\
     bdt_rx_count (hw s') VCOM_RX_ENDP = VCOM_RX_EPSIZE) /\
  usb_cdcacm_rx 0 s1 = Some ([], 0, s1) /\
  (exists s' : vcom,
     vcomDataRxCb (set_hw (hw_rx_packet [] periph0) s0) = Some s' /\
     usb_cdcacm_data_available s' = 0 /\
     vcomBufferRx s' = vcomBufferRx s0 /\
     ep_stat_rx (hw s') VCOM_RX_ENDP = USB_EP_STAT_RX_NAK).
Proof.
  intros s0 s1.
  destruct (usb_cdcacm_rx_nothing_to_read 8 periph0 s0) as (Hempty & _ & _).
  destruct (usb_cdcacm_rx_nothing_to_read 0 periph0 s1) as (_ & Hzero & _).
  destruct (usb_cdcacm_rx_nothing_to_read 0 (hw_rx_packet [] periph0) s0)
    as (_ & _ & Hzlp).
  split_and!.
  - apply Hempty; [reflexivity | lia].
  - apply Hzero; by vm_compute.
  - apply Hzlp. reflexivity.
Defined.





(** ** The two directions do not disturb each other *)

(** X16.  Transmitting leaves the receive side alone and receiving leaves
    the transmit side alone: [usb_cdcacm_tx] changes neither [newBytes], the
    read cursor, the receive buffer nor the register of the data OUT
    endpoint; [usb_cdcacm_rx] and [vcomDataRxCb] change neither [countTx]
    nor the register of the data IN endpoint. *)
Theorem tx_rx_do_not_interfere (buf : list Z) (len n : Z) (out : list Z)
    (p : usb_periph) (s s' : vcom) :
  (usb_cdcacm_tx buf len s = Some (n, s') ->
   newBytes s' = newBytes s /\
   rx_offset s' = rx_offset s /\
   vcomBufferRx s' = vcomBufferRx s /\
   EP (hw s') VCOM_RX_ENDP = EP (hw s) VCOM_RX_ENDP) /\
  (usb_cdcacm_rx len s = Some (out, n, s') ->
   countTx s' = countTx s /\
   EP (hw s') VCOM_TX_ENDP = EP (hw s) VCOM_TX_ENDP) /\
  (vcomDataRxCb (set_hw p s) = Some s' ->
   countTx s' = countTx s /\
   EP (hw s') VCOM_TX_ENDP = EP p VCOM_TX_ENDP).
Proof.
  split_and!.
  - unfold usb_cdcacm_tx, usb_copy_to_pma. intros Htx.
    destruct (decide (countTx s <> 0)); [by injection Htx as <- <-|].
    set (m := if decide (len > VCOM_TX_EPSIZE `quot` 2)
              then VCOM_TX_EPSIZE `quot` 2 else len) in *.
    destruct (decide (m <> 0)); [|by injection Htx as <- <-].
    destruct (decide (u16 m <= Z.of_nat (length buf))); [|done].
    cbn [mbind option_bind] in Htx. injection Htx as <- <-.
    cbn [newBytes rx_offset vcomBufferRx hw set_hw set_countTx].
    by split_and!.
  - intros Hrx. pose proof Hrx as Hf.
    apply usb_cdcacm_rx_frame in Hf as (Hc & _).
    split; [done|].
    apply usb_cdcacm_rx_inv in Hrx as (_ & _ & _ & _ & Hz & Hnz).
    destruct (decide (newBytes s' = 0)) as [Hd | Hd].
    + destruct (Hz Hd) as [-> _]. unfold usb_set_ep_rx_stat.
      by rewrite EP_write_EP_ne.
    + by destruct (Hnz Hd) as [-> _].
  - intros Hcb.
    apply vcomDataRxCb_frame in Hcb as (Hc & _ & _ & _ & _ & Hhw).
    cbn [hw set_hw countTx] in Hc, Hhw. split; [done|].
    rewrite Hhw. unfold usb_set_ep_rx_stat. by rewrite EP_write_EP_ne.
Qed.

Lemma tx_rx_do_not_interfere_witness :
  let s := after_rx_packet [104; 105; 33]
             (vcom_init periph0 0 0 USB_UNCONNECTED) in
  exists s' : vcom,
    usb_cdcacm_tx [65; 66] 2 s = Some (2, s') /\
    newBytes s' = newBytes s /\
    rx_offset s' = rx_offset s /\
    vcomBufferRx s' = vcomBufferRx s /\
    EP (hw s') VCOM_RX_ENDP = EP (hw s) VCOM_RX_ENDP.
Proof.
  intros s.
  pose proof (usb_cdcacm_tx_idle [65; 66] 2 s eq_refl ltac:(lia)
                ltac:(simpl; lia)) as Htx.
  cbv zeta in Htx. change (Z.min 2 32) with 2 in Htx.
  eexists. split; [exact Htx|].
  exact (proj1 (tx_rx_do_not_interfere [65; 66] 2 2 [] periph0 s _) Htx).
Defined.

(** ** Requests with a data stage, and the device state *)

Section DataStage.
Context `{UsbLib}.

(** X17.  [usbDataSetup] serves exactly the class requests to the interface
    GET_LINE_CODING and SET_LINE_CODING: for those it returns
    [USB_SUCCESS], records the request in [last_request], installs
    [vcomGetSetLineCoding] as copy routine, and sets the transfer offset to
    0 and the transfer length to the size of the line coding record.  For
    every other request it returns [USB_UNSUPPORT] and changes nothing.  In
    no case does it change the line coding itself, the peripheral, or the
    transmit and receive bookkeeping. *)
Theorem usbDataSetup_support (sz Type_Recipient request : Z) (s : vcom)
    (ci : ctrl_info) :
  let r := usbDataSetup sz Type_Recipient request s ci in
  let served :=
    Type_Recipient = Z.lor CLASS_REQUEST INTERFACE_RECIPIENT /\
    (request = GET_LINE_CODING \/ request = SET_LINE_CODING) in
  (served ->
   r = (USB_SUCCESS, set_last_request request s,
        mk_ctrl_info CopyRoutine_vcomGetSetLineCoding 0 sz)) /\
  (~ served -> r = (USB_UNSUPPORT, s, ci)) /\
  line_coding (snd (fst r)) = line_coding s /\
  hw (snd (fst r)) = hw s /\
  core_fields (snd (fst r)) = core_fields s.
Proof.
  intros r served. subst r served. unfold usbDataSetup.
  destruct (decide (Type_Recipient = Z.lor CLASS_REQUEST INTERFACE_RECIPIENT))
    as [Htr | Htr];
    [destruct (decide (request = GET_LINE_CODING)) as [Hg | Hg];
     [| destruct (decide (request = SET_LINE_CODING)) as [Hs | Hs]] |];
    cbn [fst snd]; split_and!; try done;
    try (intros _; by subst request);
    try (intros Hn; exfalso; apply Hn; tauto);
    try (intros [? [? | ?]]; done).
Qed.
End DataStage.

Lemma usbDataSetup_support_witness :
  let s0 := vcom_init periph0 0 0 USB_UNCONNECTED in
  let ci := mk_ctrl_info (CopyRoutine_of_stack 1) 5 18 in
  usbDataSetup (H := usblib_eval) 8 0x21 GET_LINE_CODING s0 ci
  = (USB_SUCCESS, set_last_request GET_LINE_CODING s0,
     mk_ctrl_info CopyRoutine_vcomGetSetLineCoding 0 8) /\
  usbDataSetup (H := usblib_eval) 8 0x21 SET_CONTROL_LINE_STATE s0 ci
  = (USB_UNSUPPORT, s0, ci).
Proof.
  intros s0 ci. split.
  - destruct (usbDataSetup_support (H := usblib_eval) 8 0x21 GET_LINE_CODING
                s0 ci) as (Hs & _).
    apply Hs. split; [reflexivity | by left].
  - destruct (usbDataSetup_support (H := usblib_eval) 8 0x21
                SET_CONTROL_LINE_STATE s0 ci) as (_ & Hu & _).
    apply Hu. intros [_ [? | ?]]; discriminate.
Defined.

Section DeviceState.
Context `{UsbLib}.

(** X18.  After a bus reset the device is attached and unconfigured, and
    the SetConfiguration callback leaves it so: [usbSetConfiguration] moves
    the device to CONFIGURED exactly when the current configuration is
    nonzero, which it is not right after [usbReset].  The SetAddress
    callback always moves it to ADDRESSED.  Neither callback touches
    anything but the device state. *)
Theorem device_state_callbacks (s : vcom) :
  usblib_state (usbReset s) = USB_ATTACHED /\
  Current_Configuration (usbReset s) = 0 /\
  usbSetConfiguration (usbReset s) = usbReset s /\
  (Current_Configuration s <> 0 ->
   usblib_state (usbSetConfiguration s) = USB_CONFIGURED) /\
  (Current_Configuration s = 0 -> usbSetConfiguration s = s) /\
  usblib_state (usbSetDeviceAddress s) = USB_ADDRESSED /\
  set_usblib_state (usblib_state s) (usbSetConfiguration s) = s /\
  set_usblib_state (usblib_state s) (usbSetDeviceAddress s) = s.
Proof.
  assert (Current_Configuration (usbReset s) = 0) as Hcfg by reflexivity.
  refine (conj _ (conj _ (conj _ (conj _ (conj _ (conj _ (conj _ _))))))).
  - reflexivity.
  - exact Hcfg.
  - unfold usbSetConfiguration.
    rewrite decide_False; [reflexivity|]. intros Hn. by apply Hn.
  - intros Hc. unfold usbSetConfiguration. by rewrite decide_True.
  - intros Hc. unfold usbSetConfiguration.
    by rewrite decide_False by (intros Hn; by apply Hn).
  - reflexivity.
  - unfold usbSetConfiguration.
    destruct (decide (Current_Configuration s <> 0)); by destruct s.
  - by destruct s.
Qed.
End DeviceState.

Lemma device_state_callbacks_witness :
  let s := set_Current_Configuration 1
             (vcom_init periph0 0 0 USB_UNCONNECTED) in
  usblib_state (usbSetConfiguration s) = USB_CONFIGURED /\
  usbSetConfiguration (vcom_init periph0 0 0 USB_UNCONNECTED)
  = vcom_init periph0 0 0 USB_UNCONNECTED.
Proof.
  intros s.
  destruct (device_state_callbacks (H := usblib_eval) s)
    as (_ & _ & _ & Hconf & _).
  destruct (device_state_callbacks (H := usblib_eval)
              (vcom_init periph0 0 0 USB_UNCONNECTED))
    as (_ & _ & _ & _ & Hkeep & _).
  split; [apply Hconf; discriminate | apply Hkeep; reflexivity].
Defined.
